(** * Contact-form mailer: verification gate and submission handler

    A shallow embedding of the NestJS contact-form endpoint:

    - [RecaptchaService.verify]          (src/recaptcha/recaptcha.service.ts)
    - [MailerDto] and its decorators     (src/mailer/mailer.dto.ts, rich variant)
    - [MailerController.sendMail] with its private helpers
                                         (src/mailer/mailer.controller.ts, rich variant)
    - the superseded test-only controller, kept as [Legacy.sendMail].

    Strings are Rocq strings read as sequences of ASCII characters; the
    JavaScript string primitives used by the source ([trim], [toLowerCase],
    [substring], [split], template literals) are written out on them.
    A JavaScript value that may be [undefined] is an [option].
    The risk score is a JSON number; its value is a rational ([Q]) and the
    threshold 0.5 is [1 # 2], so that [<] on doubles is [<] on their values.

    Effects (console and logger records, the HTTP call to the scoring
    service, calls to the mail client) are recorded in a trace; exceptions
    are a result constructor.  The outside world (scoring service, mail
    client, environment) is a record [World]. *)

From Stdlib Require Import String Ascii List Bool Arith Lia QArith.
Import ListNotations.
Local Close Scope Q_scope.
Local Open Scope string_scope.
Local Open Scope list_scope.
Local Open Scope nat_scope.

(* ===================================================================== *)
(** ** JavaScript string primitives *)
(* ===================================================================== *)

Module Js.

(** Line feed, as it occurs inside the template literals. *)
Definition LF : string := String (ascii_of_nat 10) EmptyString.

(** White space removed by [String.prototype.trim], and matched by the
    regular-expression class [\s], among ASCII characters:
    TAB, LF, VT, FF, CR and SPACE. *)
Definition isWhiteSpace (c : ascii) : bool :=
  let n := nat_of_ascii c in
  ((9 <=? n) && (n <=? 13)) || (n =? 32).

(** The class [\d]. *)
Definition isDigit (c : ascii) : bool :=
  let n := nat_of_ascii c in (48 <=? n) && (n <=? 57).

Fixpoint trimStart (s : string) : string :=
  match s with
  | EmptyString => EmptyString
  | String c s' => if isWhiteSpace c then trimStart s' else s
  end.

Fixpoint rev (s : string) : string :=
  match s with
  | EmptyString => EmptyString
  | String c s' => (rev s' ++ String c EmptyString)%string
  end.

Definition trimEnd (s : string) : string := rev (trimStart (rev s)).

(** [s.trim()] *)
Definition trim (s : string) : string := trimEnd (trimStart s).

Definition lowerChar (c : ascii) : ascii :=
  let n := nat_of_ascii c in
  if (65 <=? n) && (n <=? 90) then ascii_of_nat (n + 32) else c.

(** [s.toLowerCase()] *)
Fixpoint toLowerCase (s : string) : string :=
  match s with
  | EmptyString => EmptyString
  | String c s' => String (lowerChar c) (toLowerCase s')
  end.

(** [s.substring(0, n)]: the first [n] characters, or all of [s] when it
    is shorter. *)
Definition substring0 (n : nat) (s : string) : string := substring 0 n s.

(** [s.split(',')[0]]: the part of [s] before its first comma. *)
Fixpoint beforeComma (s : string) : string :=
  match s with
  | EmptyString => EmptyString
  | String c s' =>
      if Ascii.eqb c ","%char then EmptyString else String c (beforeComma s')
  end.

(** [hay.includes(needle)] *)
Fixpoint includes (needle hay : string) : bool :=
  prefix needle hay ||
  match hay with
  | EmptyString => false
  | String _ hay' => includes needle hay'
  end.

(** Truthiness of a string that may be [undefined]: [!!v]. *)
Definition truthy (v : option string) : bool :=
  match v with
  | Some s => negb (s =? EmptyString)%string
  | None => false
  end.

(** [a || b] on strings that may be [undefined]. *)
Definition or (a b : option string) : option string :=
  if truthy a then a else b.

(** [`${v}`]: interpolation of a value that may be [undefined]. *)
Definition interp (v : option string) : string :=
  match v with
  | Some s => s
  | None => "undefined"
  end.

(** [v?.f()] *)
Definition optChain {A B} (f : A -> B) (v : option A) : option B :=
  option_map f v.

End Js.

(* ===================================================================== *)
(** ** Exceptions, trace events and the effect monad *)
(* ===================================================================== *)

(** HTTP status codes used by the source ([HttpStatus]). *)
Definition BAD_REQUEST : nat := 400.
Definition UNAUTHORIZED : nat := 401.
Definition INTERNAL_SERVER_ERROR : nat := 500.

(** The body of a failed HTTP exchange, as far as the source looks at it
    ([error.response.status], [error.response.data]). *)
Record ErrorResponse := {
  err_status : nat;
  err_data : string
}.

(** What the source throws or may have thrown at it. *)
Inductive exn :=
| HttpException (message : string) (status : nat)
| BadRequestException (messages : list string)
| UnauthorizedException (message : string)
| Error (message : string)
| TypeError (message : string)
| RequestError (message : string) (response : option ErrorResponse).

(** [error.response], when there is one, as far as the source looks at it:
    its [status] and its [data].  A failed HTTP exchange may carry the
    response of the server.  The framework's [HttpException] (and its
    subclasses) keeps what it was constructed with in a property of the
    same name, a string or an object with neither [status] nor [data].
    A plain [Error] has no such property. *)
Definition exn_response (e : exn) : option (option nat * option string) :=
  match e with
  | HttpException _ _ => Some (None, None)
  | BadRequestException _ => Some (None, None)
  | UnauthorizedException _ => Some (None, None)
  | Error _ => None
  | TypeError _ => None
  | RequestError _ (Some r) => Some (Some (err_status r), Some (err_data r))
  | RequestError _ None => None
  end.

Definition exn_message (e : exn) : list string :=
  match e with
  | HttpException m _ => [m]
  | BadRequestException ms => ms
  | UnauthorizedException m => [m]
  | Error m => [m]
  | TypeError m => [m]
  | RequestError m _ => [m]
  end.

Inductive level := LLog | LWarn | LError.

(** A value printed in a diagnostic record. *)
Inductive logval :=
| VStr (s : option string)
| VNum (q : Q)
| VStrs (l : option (list string))
| VNat (n : option nat)
| VExn (e : exn).

Record EmailMessage := {
  msg_to : option string;
  msg_from : string;
  msg_subject : string;
  msg_text : string
}.

(** The request body posted to the scoring service. *)
Record AssessmentEvent := {
  ev_token : string;
  ev_siteKey : option string;
  ev_expectedAction : option string
}.

Inductive event :=
| Console (l : level) (label : string) (payload : list (string * logval))
| Logger (l : level) (message : string) (extra : list logval)
| HttpPost (url : string) (body : AssessmentEvent)
| SendMail (m : EmailMessage).

Inductive result (A : Type) :=
| Return (a : A)
| Throw (e : exn).
Arguments Return {A} a.
Arguments Throw {A} e.

(** A computation: the events it performed, in order, and how it ended. *)
Definition M (A : Type) : Type := list event * result A.

Definition ret {A} (a : A) : M A := ([], Return a).
Definition throw {A} (e : exn) : M A := ([], Throw e).
Definition emit (e : event) : M unit := ([e], Return tt).

Definition bind {A B} (m : M A) (k : A -> M B) : M B :=
  match m with
  | (t, Return a) => let (t', r) := k a in (t ++ t', r)
  | (t, Throw e) => (t, Throw e)
  end.

(** [try { m } catch (error) { h error }] *)
Definition try_catch {A} (m : M A) (h : exn -> M A) : M A :=
  match m with
  | (t, Return a) => (t, Return a)
  | (t, Throw e) => let (t', r) := h e in (t ++ t', r)
  end.

Definition trace {A} (m : M A) : list event := fst m.
Definition outcome {A} (m : M A) : result A := snd m.

Declare Scope js_scope.
Delimit Scope js_scope with js.
Notation "x <- c ;; k" := (bind c (fun x => k))
  (at level 61, c at next level, right associativity) : js_scope.
Notation "c ;; k" := (bind c (fun _ => k))
  (at level 61, right associativity) : js_scope.
Local Open Scope js_scope.

(** The mail-client calls recorded in a trace. *)
Fixpoint sends (t : list event) : list EmailMessage :=
  match t with
  | [] => []
  | SendMail m :: t' => m :: sends t'
  | _ :: t' => sends t'
  end.

(** The scoring-service calls recorded in a trace. *)
Fixpoint posts (t : list event) : list AssessmentEvent :=
  match t with
  | [] => []
  | HttpPost _ b :: t' => b :: posts t'
  | _ :: t' => posts t'
  end.

(* ===================================================================== *)
(** ** The outside world *)
(* ===================================================================== *)

(** [RecaptchaEnterpriseResponse], with every property optional: the
    response is whatever the scoring service sent. *)
Record TokenProperties := {
  valid : bool;
  invalidReason : option string;
  hostname : option string;
  action : option string
}.

Record RiskAnalysis := {
  score : option Q;
  reasons : option (list string)
}.

Record RecaptchaEnterpriseResponse := {
  tokenProperties : option TokenProperties;
  riskAnalysis : option RiskAnalysis
}.

(** How the HTTP call to the scoring service ends.  [data] is [None] when
    the response body is JSON [null]. *)
Inductive HttpOutcome :=
| Responded (data : option RecaptchaEnterpriseResponse)
| Failed (message : string) (response : option ErrorResponse).

(** How one promise of [Promise.allSettled] ends. *)
Inductive Settled :=
| Fulfilled
| Rejected (reason : string).

Record World := {
  (** [configService.get] *)
  RECAPTCHA_PROJECT_ID : option string;
  RECAPTCHA_API_KEY : option string;
  RECAPTCHA_SITE_KEY : option string;
  (** [process.env.ADMIN_EMAIL] *)
  ADMIN_EMAIL : option string;
  (** [httpService.post], the scoring service *)
  httpService_post : string -> AssessmentEvent -> HttpOutcome;
  (** [mailerService.sendMail], the mail client (its source is not part of
      the repository snapshot; only success or failure is observed) *)
  mailerService_sendMail : EmailMessage -> Settled;
  (** class-validator's [isEmail] (validator.js), an external predicate *)
  isEmail : string -> bool
}.

Definition Qlt_bool (a b : Q) : bool := negb (Qle_bool b a).

Definition strict_eq (a b : option string) : bool :=
  match a, b with
  | Some x, Some y => (x =? y)%string
  | None, None => true
  | _, _ => false
  end.

(* ===================================================================== *)
(** ** RecaptchaService (src/recaptcha/recaptcha.service.ts) *)
(* ===================================================================== *)

Module RecaptchaService.

Record t := {
  recaptchaEnterpriseUrl : string;
  projectId : string;
  apiKey : string
}.

(** The constructor: both settings are required. *)
Definition new (w : World) : result t :=
  if negb (Js.truthy (RECAPTCHA_PROJECT_ID w)) then
    Throw (Error "RECAPTCHA_PROJECT_ID is not defined in environment variables")
  else if negb (Js.truthy (RECAPTCHA_API_KEY w)) then
    Throw (Error "RECAPTCHA_API_KEY is not defined in environment variables")
  else
    let p := Js.interp (RECAPTCHA_PROJECT_ID w) in
    Return {| projectId := p;
              apiKey := Js.interp (RECAPTCHA_API_KEY w);
              recaptchaEnterpriseUrl :=
                "https://recaptchaenterprise.googleapis.com/v1/projects/"
                ++ p ++ "/assessments" |}.

Section Verify.
Variable w : World.
Variable this : t.

(** [await firstValueFrom(this.httpService.post(url, body, ...))] *)
Definition post (url : string) (body : AssessmentEvent)
  : M (option RecaptchaEnterpriseResponse) :=
  emit (HttpPost url body) ;;
  match httpService_post w url body with
  | Responded data => ret data
  | Failed m r => throw (RequestError m r)
  end.

(** The default of the parameter [minScore: number = 0.5]. *)
Definition orDefault (minScore : option Q) : Q :=
  match minScore with
  | Some q => q
  | None => (1 # 2)%Q
  end.

(** [data.riskAnalysis?.score ?? 0] *)
Definition score_of (data : RecaptchaEnterpriseResponse) : Q :=
  match riskAnalysis data with
  | Some ra => match score ra with Some s => s | None => 0%Q end
  | None => 0%Q
  end.

(** [data.riskAnalysis?.reasons] *)
Definition reasons_of (data : RecaptchaEnterpriseResponse)
  : option (list string) :=
  match riskAnalysis data with
  | Some ra => reasons ra
  | None => None
  end.

(** The record of line 87, with the token shortened by
    [token.substring(0, 20) + '...']. *)
Definition warn_invalid (reason : option string) (token : string) : M unit :=
  emit (Console LWarn "reCAPTCHA Enterprise token invalid:"
          [("reason", VStr reason);
           ("token", VStr (Some (Js.substring0 20 token ++ "...")%string))]).

(** The [requestBody] of line 65. *)
Definition requestBody (token : string) (expectedAction : option string)
  : AssessmentEvent :=
  {| ev_token := token;
     ev_siteKey := RECAPTCHA_SITE_KEY w;
     ev_expectedAction := Js.or expectedAction (Some "submit") |}.

(** [`${this.recaptchaEnterpriseUrl}?key=${this.apiKey}`] *)
Definition requestUrl : string :=
  (recaptchaEnterpriseUrl this ++ "?key=" ++ apiKey this)%string.

(** The body of the [try] block, after the token test. *)
Definition assess (token : string) (expectedAction : option string)
           (minScore : Q) : M bool :=
  data <- post requestUrl (requestBody token expectedAction) ;;
  match data with
  | None =>
      throw (TypeError "Cannot read properties of null (reading 'tokenProperties')")
  | Some data =>
      match tokenProperties data with
      | None => warn_invalid None token ;; ret false
      | Some tp =>
          if negb (valid tp) then
            warn_invalid (invalidReason tp) token ;; ret false
          else if Js.truthy expectedAction
                  && negb (strict_eq (action tp) expectedAction) then
            emit (Console LWarn "reCAPTCHA Enterprise action mismatch:"
                    [("expected", VStr expectedAction);
                     ("actual", VStr (action tp))]) ;;
            ret false
          else
            let score := score_of data in
            if Qlt_bool score minScore then
              emit (Console LWarn "reCAPTCHA Enterprise score too low:"
                      [("score", VNum score);
                       ("minScore", VNum minScore);
                       ("reasons", VStrs (reasons_of data))]) ;;
              ret false
            else
              emit (Console LLog "reCAPTCHA Enterprise verification successful:"
                      [("score", VNum score);
                       ("action", VStr (action tp));
                       ("hostname", VStr (hostname tp))]) ;;
              ret true
      end
  end.

(** The [catch] block of [verify]. *)
Definition verify_catch (error : exn) : M bool :=
  emit (Console LError "Error verifying reCAPTCHA Enterprise token:"
          [("error", VExn error)]) ;;
  match exn_response error with
  | Some r =>
      emit (Console LError "reCAPTCHA Enterprise API error:"
              [("status", VNat (fst r));
               ("data", VStr (snd r))])
  | None => ret tt
  end ;;
  ret false.

(** [verify(token, expectedAction?, minScore = 0.5)] *)
Definition verify (token : string) (expectedAction : option string)
           (minScore : option Q) : M bool :=
  try_catch
    (if negb (Js.truthy (Some token)) then
       throw (HttpException "reCAPTCHA token is required" BAD_REQUEST)
     else
       assess token expectedAction (orDefault minScore))
    verify_catch.

(** [getAssessment(token)]: the same call without an expected action; the
    whole answer is returned, [null] ([None]) on any failure. *)
Definition getAssessment (token : string)
  : M (option RecaptchaEnterpriseResponse) :=
  try_catch
    (if negb (Js.truthy (Some token)) then
       throw (HttpException "reCAPTCHA token is required" BAD_REQUEST)
     else
       post requestUrl
         {| ev_token := token;
            ev_siteKey := RECAPTCHA_SITE_KEY w;
            ev_expectedAction := None |})
    (fun error =>
       emit (Console LError "Error getting reCAPTCHA Enterprise assessment:"
               [("error", VExn error)]) ;;
       ret None).

End Verify.

End RecaptchaService.

(* ===================================================================== *)
(** ** MailerDto and the validation pipe (src/mailer/mailer.dto.ts) *)
(* ===================================================================== *)

(** The request body and the object handed to the controller.  Each
    property is a string or is absent (bodies with values of other JSON
    types are outside this model).  The class declares seven properties;
    [message] is not one of them, but the controller reads [data.message],
    so the property is kept here as one that an object may carry. *)
Record MailerDto := {
  firstName : option string;
  lastName : option string;
  email : option string;
  phone : option string;
  petType : option string;
  dates : option string;
  recaptchaToken : option string;
  message : option string
}.

(** The same object with another [message] property (or none). *)
Definition withMessage (m : option string) (d : MailerDto) : MailerDto :=
  {| firstName := firstName d;
     lastName := lastName d;
     email := email d;
     phone := phone d;
     petType := petType d;
     dates := dates d;
     recaptchaToken := recaptchaToken d;
     message := m |}.

Module Validator.

(** class-validator: [value !== '' && value !== null && value !== undefined] *)
Definition isNotEmpty (v : option string) : bool :=
  match v with
  | Some s => negb (s =? EmptyString)%string
  | None => false
  end.

(** [typeof value === 'string'] *)
Definition isString (v : option string) : bool :=
  match v with
  | Some _ => true
  | None => false
  end.

(** [typeof value === 'string' && value.length <= max] *)
Definition maxLength (max : nat) (v : option string) : bool :=
  match v with
  | Some s => String.length s <=? max
  | None => false
  end.

(** [typeof value === 'string' && pattern.test(value)] *)
Definition matches (pattern : string -> bool) (v : option string) : bool :=
  match v with
  | Some s => pattern s
  | None => false
  end.

(** One character of the class [[\d\s\-\+\(\)]]. *)
Definition phoneChar (c : ascii) : bool :=
  Js.isDigit c || Js.isWhiteSpace c
  || Ascii.eqb c "-"%char || Ascii.eqb c "+"%char
  || Ascii.eqb c "("%char || Ascii.eqb c ")"%char.

(** The pattern [/^[\d\s\-\+\(\)]+$/]. *)
Definition phonePattern (s : string) : bool :=
  negb (s =? EmptyString)%string && forallb phoneChar (list_ascii_of_string s).

Definition check (ok : bool) (msg : string) : list string :=
  if ok then [] else [msg].

End Validator.

Module Dto.
Import Validator.

(** The [@Transform] decorators, applied by class-transformer before the
    object is validated ([transform: true]).  [recaptchaToken] has none. *)
Definition transform (b : MailerDto) : MailerDto :=
  {| firstName := Js.optChain Js.trim (firstName b);
     lastName := Js.optChain Js.trim (lastName b);
     email := Js.optChain (fun s => Js.toLowerCase (Js.trim s)) (email b);
     phone := Js.optChain Js.trim (phone b);
     petType := Js.optChain Js.trim (petType b);
     dates := Js.optChain Js.trim (dates b);
     recaptchaToken := recaptchaToken b;
     message := message b |}.

(** [whitelist: true]: properties without any validation decorator are
    removed from the validated object.  Only [message] is such a one. *)
Definition whitelist (d : MailerDto) : MailerDto :=
  {| firstName := firstName d;
     lastName := lastName d;
     email := email d;
     phone := phone d;
     petType := petType d;
     dates := dates d;
     recaptchaToken := recaptchaToken d;
     message := None |}.

Section Validate.
Variable w : World.

Definition isEmailV (v : option string) : bool :=
  match v with
  | Some s => isEmail w s
  | None => false
  end.

(** The decorators of the class, property by property: whether the
    constraint holds of the object, and its message. *)
Definition constraints (d : MailerDto) : list (bool * string) :=
  [ (isNotEmpty (firstName d), "First name is required");
    (isString (firstName d), "First name must be a string");
    (maxLength 50 (firstName d), "First name cannot exceed 50 characters");
    (isNotEmpty (lastName d), "Last name is required");
    (isString (lastName d), "Last name must be a string");
    (maxLength 50 (lastName d), "Last name cannot exceed 50 characters");
    (isNotEmpty (email d), "Email is required");
    (isEmailV (email d), "Please provide a valid email address");
    (maxLength 100 (email d), "Email cannot exceed 100 characters");
    (isNotEmpty (phone d), "Phone number is required");
    (isString (phone d), "Phone number must be a string");
    (maxLength 20 (phone d), "Phone number cannot exceed 20 characters");
    (matches phonePattern (phone d), "Please provide a valid phone number");
    (isNotEmpty (petType d), "Pet type is required");
    (isString (petType d), "Pet type must be a string");
    (maxLength 200 (petType d), "Pet type description cannot exceed 200 characters");
    (isNotEmpty (dates d), "Dates are required");
    (isString (dates d), "Dates must be a string");
    (maxLength 200 (dates d), "Dates description cannot exceed 200 characters");
    (isNotEmpty (recaptchaToken d), "Security verification is required");
    (isString (recaptchaToken d), "Invalid security token") ].

(** The messages of the violated constraints.  (The order in which the
    library reports them is not fixed by the source; the theorems below
    only use membership.) *)
Definition validate (d : MailerDto) : list string :=
  flat_map (fun c => check (fst c) (snd c)) (constraints d).

(** [new ValidationPipe({ transform: true, whitelist: true })] *)
Definition ValidationPipe (body : MailerDto) : result MailerDto :=
  let d := whitelist (transform body) in
  match validate d with
  | [] => Return d
  | errors => Throw (BadRequestException errors)
  end.

End Validate.

End Dto.

(* ===================================================================== *)
(** ** MailerController (src/mailer/mailer.controller.ts, rich variant) *)
(* ===================================================================== *)

(** The parts of the express [Request] that the controller reads. *)
Record Request := {
  req_ip : option string;
  connection_remoteAddress : option string;
  socket_remoteAddress : option string;
  x_forwarded_for : option string
}.

Record EmailContent := {
  user : EmailMessage;
  admin : EmailMessage
}.

(** The body of a successful reply. *)
Record Reply := {
  success : bool;
  reply_message : string
}.

Module MailerController.

Definition getClientIp (request : Request) : string :=
  Js.interp
    (Js.or (req_ip request)
       (Js.or (connection_remoteAddress request)
          (Js.or (socket_remoteAddress request)
             (Js.or (Js.optChain Js.beforeComma (x_forwarded_for request))
                (Some "unknown"))))).

Definition sanitizeInput (data : MailerDto) : MailerDto :=
  {| firstName := Js.optChain Js.trim (firstName data);
     lastName := Js.optChain Js.trim (lastName data);
     email := Js.optChain (fun s => Js.toLowerCase (Js.trim s)) (email data);
     phone := phone data;
     petType := petType data;
     dates := dates data;
     recaptchaToken := recaptchaToken data;
     message := message data |}.

Definition userText (userName : string) : string :=
  ("Hi " ++ userName ++ "," ++ Js.LF
   ++ Js.LF
   ++ "Thank you for reaching out to us regarding pet sitting services. We have received your message and will get back to you within 24 hours." ++ Js.LF
   ++ Js.LF
   ++ "Best regards," ++ Js.LF
   ++ "Grant Pieterse - Pet Sitter" ++ Js.LF
   ++ Js.LF
   ++ "---" ++ Js.LF
   ++ "This is an automated confirmation email. Please do not reply to this message.")%string.

Definition adminText (userName : string) (data : MailerDto) : string :=
  ("New contact form submission received:" ++ Js.LF
   ++ Js.LF
   ++ "Contact Information:" ++ Js.LF
   ++ "- Name: " ++ userName ++ Js.LF
   ++ "- Email: " ++ Js.interp (email data) ++ Js.LF
   ++ "- Message: " ++ Js.interp (message data) ++ Js.LF
   ++ Js.LF
   ++ "Please respond to the customer within 24 hours.")%string.

Section Controller.
Variable w : World.
Variable recaptchaService : RecaptchaService.t.

Definition prepareEmailContent (data : MailerDto) : result EmailContent :=
  let userName :=
    (Js.interp (firstName data) ++ " " ++ Js.interp (lastName data))%string in
  let adminEmail := ADMIN_EMAIL w in
  if negb (Js.truthy adminEmail) then
    Throw (Error "ADMIN_EMAIL environment variable is not configured")
  else
    let adminEmail := Js.interp adminEmail in
    Return
      {| user :=
           {| msg_to := email data;
              msg_from := adminEmail;
              msg_subject := "Confirmation: Your message has been received";
              msg_text := userText userName |};
         admin :=
           {| msg_to := Some adminEmail;
              msg_from := adminEmail;
              msg_subject :=
                ("New Contact Form Submission - " ++ userName)%string;
              msg_text := adminText userName data |} |}.

(** One call [this.mailerService.sendMail(to, from, subject, text)]:
    the call is made, and its promise settles one way or the other. *)
Definition callSendMail (m : EmailMessage) : M Settled :=
  emit (SendMail m) ;; ret (mailerService_sendMail w m).

Definition sendEmails (emailContent : EmailContent) : M (Settled * Settled) :=
  try_catch
    (adminResult <- callSendMail (admin emailContent) ;;
     userResult <- callSendMail (user emailContent) ;;
     match adminResult with
     | Rejected reason =>
         emit (Logger LError "Failed to send admin notification email"
                 [VStr (Some reason)]) ;;
         throw (Error "Failed to process contact form submission")
     | Fulfilled => ret tt
     end ;;
     match userResult with
     | Rejected reason =>
         emit (Logger LWarn "Failed to send user confirmation email"
                 [VStr (Some reason)])
     | Fulfilled => ret tt
     end ;;
     ret (adminResult, userResult))
    (fun error =>
       emit (Logger LError "Email sending failed" [VExn error]) ;;
       throw error).

Definition successReply : Reply :=
  {| success := true;
     reply_message :=
       "Your message has been sent successfully. We will get back to you soon!" |}.

Definition technicalDifficulties : exn :=
  HttpException
    "We are currently experiencing technical difficulties. Please try again later or contact us directly."
    INTERNAL_SERVER_ERROR.

(** The handler proper, entered once the pipe has produced [mailerDto]. *)
Definition sendMail (mailerDto : MailerDto) (request : Request) : M Reply :=
  let clientIp := getClientIp request in
  emit (Logger LLog ("Contact form submission from IP: " ++ clientIp)%string []) ;;
  try_catch
    ((if negb (Js.truthy (recaptchaToken mailerDto)) then
        emit (Logger LWarn ("Missing reCAPTCHA token from IP: " ++ clientIp)%string []) ;;
        throw (BadRequestException ["Security verification is required"])
      else ret tt) ;;
     isValidToken <-
       RecaptchaService.verify w recaptchaService
         (Js.interp (recaptchaToken mailerDto)) (Some "contact_form")
         (Some (1 # 2)%Q) ;;
     (if negb isValidToken then
        emit (Logger LWarn ("reCAPTCHA verification failed from IP: " ++ clientIp)%string []) ;;
        throw (UnauthorizedException "Security verification failed. Please try again.")
      else ret tt) ;;
     let sanitizedData := sanitizeInput mailerDto in
     emailContent <-
       match prepareEmailContent sanitizedData with
       | Return c => ret c
       | Throw e => throw e
       end ;;
     emailResults <- sendEmails emailContent ;;
     emit (Logger LLog
             ("Contact form successfully sent for "
              ++ Js.interp (email sanitizedData)
              ++ " from IP: " ++ clientIp)%string []) ;;
     ret successReply)
    (fun error =>
       emit (Logger LError ("Contact form error from IP: " ++ clientIp)%string
               [VExn error]) ;;
       match error with
       | UnauthorizedException _ | BadRequestException _ => throw error
       | _ => throw technicalDifficulties
       end).

(** The route [POST /mail/send]: the pipe, then the handler.  (The
    throttling guard in front of both is an external collaborator and
    is taken to let the request through.) *)
Definition handle (body : MailerDto) (request : Request) : M Reply :=
  match Dto.ValidationPipe w body with
  | Return mailerDto => sendMail mailerDto request
  | Throw e => throw e
  end.

End Controller.

End MailerController.

(** The call the handler makes to the gate (line 47): the submitted token,
    the fixed action label and the fixed minimum score. *)
Definition gateCall (w : World) (this : RecaptchaService.t)
           (mailerDto : MailerDto) : M bool :=
  RecaptchaService.verify w this (Js.interp (recaptchaToken mailerDto))
    (Some "contact_form") (Some (1 # 2)%Q).

(** What the caller sees: the framework turns an exception into a status
    code and a message. *)
Inductive HttpReply :=
| Ok (body : Reply)
| Fail (status : nat) (message : list string).

Definition respond (r : result Reply) : HttpReply :=
  match r with
  | Return body => Ok body
  | Throw (HttpException m s) => Fail s [m]
  | Throw (BadRequestException ms) => Fail BAD_REQUEST ms
  | Throw (UnauthorizedException m) => Fail UNAUTHORIZED [m]
  | Throw _ => Fail INTERNAL_SERVER_ERROR ["Internal server error"]
  end.

(* ===================================================================== *)
(** ** The test-only controller (src/mailer/mailer.controller.ts, minimal
       variant, marked "Do not use this controller it is for testing only") *)
(* ===================================================================== *)

Module Legacy.

(** The successful reply of this variant carries the two send results. *)
Record Reply := {
  success : bool;
  reply_message : string;
  data : Settled * Settled
}.

Section Controller.
Variable w : World.
Variable recaptchaService : RecaptchaService.t.

(** [process.env.ADMIN_EMAIL || ''] *)
Definition adminAddress : string :=
  Js.interp (Js.or (ADMIN_EMAIL w) (Some EmptyString)).

Definition userName (mailerDto : MailerDto) : string :=
  (Js.interp (firstName mailerDto) ++ " " ++ Js.interp (lastName mailerDto))%string.

Definition userText (mailerDto : MailerDto) : string :=
  (Js.LF
   ++ "    Hi " ++ userName mailerDto ++ "," ++ Js.LF ++ Js.LF ++ Js.LF
   ++ "    Thank you for reaching out. We will get back to you shortly:"
   ++ Js.LF ++ Js.LF ++ "." ++ Js.LF
   ++ "    Grant Pieterse - Pet Sitter" ++ Js.LF
   ++ "    ")%string.

Definition messageText (mailerDto : MailerDto) : string :=
  ("Phone: " ++ Js.interp (phone mailerDto) ++ " " ++ Js.LF ++ Js.LF
   ++ " Pet Types: " ++ Js.interp (petType mailerDto) ++ " " ++ Js.LF ++ Js.LF
   ++ " Dates: " ++ Js.interp (dates mailerDto))%string.

Definition adminText (mailerDto : MailerDto) : string :=
  ("You have received a new message from " ++ userName mailerDto
   ++ " (" ++ Js.interp (email mailerDto) ++ "):" ++ Js.LF ++ Js.LF
   ++ messageText mailerDto)%string.

Definition adminMessage (mailerDto : MailerDto) : EmailMessage :=
  {| msg_to := Some adminAddress;
     msg_from := adminAddress;
     msg_subject := ("New message from " ++ userName mailerDto)%string;
     msg_text := adminText mailerDto |}.

Definition userMessage (mailerDto : MailerDto) : EmailMessage :=
  {| msg_to := email mailerDto;
     msg_from := adminAddress;
     msg_subject := "Confirmation: Your message has been sent";
     msg_text := userText mailerDto |}.

(** [await this.mailerService.sendMail(...)]: a rejected promise is an
    exception here. *)
Definition awaitSendMail (m : EmailMessage) : M Settled :=
  emit (SendMail m) ;;
  match mailerService_sendMail w m with
  | Fulfilled => ret Fulfilled
  | Rejected reason => throw (Error reason)
  end.

Definition sendMail (mailerDto : MailerDto) : M Reply :=
  try_catch
    ((if negb (Js.truthy (recaptchaToken mailerDto)) then
        throw (UnauthorizedException "reCAPTCHA token is required")
      else ret tt) ;;
     isValidToken <-
       RecaptchaService.verify w recaptchaService
         (Js.interp (recaptchaToken mailerDto)) (Some "contact_form")
         (Some (1 # 2)%Q) ;;
     (if negb isValidToken then
        throw (UnauthorizedException "reCAPTCHA verification failed. Please try again.")
      else ret tt) ;;
     adminMailResponse <- awaitSendMail (adminMessage mailerDto) ;;
     userMailResponse <- awaitSendMail (userMessage mailerDto) ;;
     ret {| success := true;
            reply_message := "Email sent successfully";
            data := (adminMailResponse, userMailResponse) |})
    (fun error =>
       match error with
       | UnauthorizedException _ => throw error
       | _ =>
           emit (Console LError "Error sending email:" [("error", VExn error)]) ;;
           throw (HttpException "Failed to send email. Please try again later."
                    INTERNAL_SERVER_ERROR)
       end).

End Controller.

End Legacy.

(* ===================================================================== *)
(** ** Concrete requests and worlds *)
(* ===================================================================== *)

Module Examples.

(** A stand-in for validator.js [isEmail], used by the examples only:
    no white space, something before an at sign, a dot after it. *)
Fixpoint afterAt (s : string) : option string :=
  match s with
  | EmptyString => None
  | String c s' => if Ascii.eqb c "@"%char then Some s' else afterAt s'
  end.

Definition isEmailSketch (s : string) : bool :=
  forallb (fun c => negb (Js.isWhiteSpace c)) (list_ascii_of_string s)
  && negb (prefix "@" s)
  && match afterAt s with
     | Some d => Js.includes "." d
     | None => false
     end.

Definition service : RecaptchaService.t :=
  {| RecaptchaService.recaptchaEnterpriseUrl :=
       "https://recaptchaenterprise.googleapis.com/v1/projects/demo/assessments";
     RecaptchaService.projectId := "demo";
     RecaptchaService.apiKey := "key" |}.

Definition world (post : AssessmentEvent -> HttpOutcome)
           (mail : EmailMessage -> Settled) (adminEmail : option string) : World :=
  {| RECAPTCHA_PROJECT_ID := Some "demo";
     RECAPTCHA_API_KEY := Some "key";
     RECAPTCHA_SITE_KEY := Some "site";
     ADMIN_EMAIL := adminEmail;
     httpService_post := fun _ body => post body;
     mailerService_sendMail := mail;
     isEmail := isEmailSketch |}.

(** A scoring-service answer: token valid, the given action and score. *)
Definition answer (act : string) (sc : option Q) : HttpOutcome :=
  Responded (Some
    {| tokenProperties :=
         Some {| valid := true; invalidReason := None;
                 hostname := Some "example.com"; action := Some act |};
       riskAnalysis := Some {| score := sc; reasons := Some [] |} |}).

(** A scoring-service answer: token not valid. *)
Definition invalidAnswer : HttpOutcome :=
  Responded (Some
    {| tokenProperties :=
         Some {| valid := false; invalidReason := Some "MALFORMED";
                 hostname := None; action := None |};
       riskAnalysis := None |}).

Definition admin_address : string := "owner@example.com".

Definition allDelivered : EmailMessage -> Settled := fun _ => Fulfilled.

(** The mail client fails for the operator's address only. *)
Definition operatorFails : EmailMessage -> Settled :=
  fun m => if strict_eq (msg_to m) (Some admin_address)
           then Rejected "SMTP down" else Fulfilled.

(** The mail client fails for every address but the operator's. *)
Definition submitterFails : EmailMessage -> Settled :=
  fun m => if strict_eq (msg_to m) (Some admin_address)
           then Fulfilled else Rejected "mailbox unknown".

Definition passing : World :=
  world (fun _ => answer "contact_form" (Some (9 # 10)%Q)) allDelivered
        (Some admin_address).

(** The request of the specification's worked example. *)
Definition jane : MailerDto :=
  {| firstName := Some "Jane";
     lastName := Some "Doe";
     email := Some "JANE@x.com ";
     phone := Some "555-1234";
     petType := Some "dog";
     dates := Some "Jul 1-5";
     recaptchaToken := Some "tok123";
     message := Some "..." |}.

Definition request : Request :=
  {| req_ip := Some "203.0.113.7";
     connection_remoteAddress := None;
     socket_remoteAddress := None;
     x_forwarded_for := None |}.

(** The same service, with the mail client failing one way or the other,
    and with a scoring service that finds the token invalid. *)
Definition operatorDown : World :=
  world (fun _ => answer "contact_form" (Some (9 # 10)%Q)) operatorFails
        (Some admin_address).

Definition submitterDown : World :=
  world (fun _ => answer "contact_form" (Some (9 # 10)%Q)) submitterFails
        (Some admin_address).

Definition tokenInvalid : World :=
  world (fun _ => invalidAnswer) allDelivered (Some admin_address).

(** A token issued for another action, scored 0.9, and one with no score. *)
Definition otherAction : World :=
  world (fun _ => answer "login" (Some (9 # 10)%Q)) allDelivered
        (Some admin_address).

Definition unscored : World :=
  world (fun _ => answer "contact_form" None) allDelivered
        (Some admin_address).

(** What the pipe makes of [jane]. *)
Definition janeDto : MailerDto :=
  {| firstName := Some "Jane";
     lastName := Some "Doe";
     email := Some "jane@x.com";
     phone := Some "555-1234";
     petType := Some "dog";
     dates := Some "Jul 1-5";
     recaptchaToken := Some "tok123";
     message := None |}.

(** The two messages composed for [jane]. *)
Definition janeContent : EmailContent :=
  {| user :=
       {| msg_to := Some "jane@x.com";
          msg_from := admin_address;
          msg_subject := "Confirmation: Your message has been received";
          msg_text := MailerController.userText "Jane Doe" |};
     admin :=
       {| msg_to := Some admin_address;
          msg_from := admin_address;
          msg_subject := "New Contact Form Submission - Jane Doe";
          msg_text := MailerController.adminText "Jane Doe" janeDto |} |}.

(** [jane], with another [message] property (or none). *)
Definition janeWith (m : option string) : MailerDto := withMessage m jane.

(** No operator address in the environment. *)
Definition unconfigured : World :=
  world (fun _ => answer "contact_form" (Some (9 # 10)%Q)) allDelivered None.

(** A token scored 0.3. *)
Definition lowScore : World :=
  world (fun _ => answer "contact_form" (Some (3 # 10)%Q)) allDelivered
        (Some admin_address).

(** The scoring service answers with an HTTP error. *)
Definition serviceError : World :=
  world (fun _ => Failed "Request failed with status code 503"
                    (Some {| err_status := 503; err_data := "unavailable" |}))
        allDelivered (Some admin_address).

(** [jane] with a first name of white space only. *)
Definition blankName : MailerDto :=
  {| firstName := Some "   ";
     lastName := lastName jane;
     email := email jane;
     phone := phone jane;
     petType := petType jane;
     dates := dates jane;
     recaptchaToken := recaptchaToken jane;
     message := message jane |}.


(** A request that came through two proxies, with no socket address. *)
Definition proxied : Request :=
  {| req_ip := None;
     connection_remoteAddress := Some EmptyString;
     socket_remoteAddress := None;
     x_forwarded_for := Some "198.51.100.4, 10.0.0.1" |}.

End Examples.

(* ===================================================================== *)
(** ** The declared properties of the request *)
(* ===================================================================== *)

(** A string that does not begin with white space. *)
Definition startsClean (s : string) : bool :=
  match s with
  | EmptyString => true
  | String c _ => negb (Js.isWhiteSpace c)
  end.

(** The seven properties that [MailerDto] declares, each with the message
    of its [@IsNotEmpty] decorator. *)
Inductive field :=
| FirstName | LastName | Email | Phone | PetType | Dates | RecaptchaToken.

Definition get (f : field) (d : MailerDto) : option string :=
  match f with
  | FirstName => firstName d
  | LastName => lastName d
  | Email => email d
  | Phone => phone d
  | PetType => petType d
  | Dates => dates d
  | RecaptchaToken => recaptchaToken d
  end.

Definition requiredMessage (f : field) : string :=
  match f with
  | FirstName => "First name is required"
  | LastName => "Last name is required"
  | Email => "Email is required"
  | Phone => "Phone number is required"
  | PetType => "Pet type is required"
  | Dates => "Dates are required"
  | RecaptchaToken => "Security verification is required"
  end.

(** A string that does not end with white space. *)
Definition endsClean (s : string) : bool := startsClean (Js.rev s).

(** The length bound of a declared property ([@MaxLength]); the token has
    none. *)
Definition lengthLimit (f : field) : option nat :=
  match f with
  | FirstName => Some 50
  | LastName => Some 50
  | Email => Some 100
  | Phone => Some 20
  | PetType => Some 200
  | Dates => Some 200
  | RecaptchaToken => None
  end.


(** A property that is absent from the body, or present and empty. *)
Definition missingOrEmpty (v : option string) : Prop :=
  v = None \/ v = Some EmptyString.

(* ===================================================================== *)
(** ** What a diagnostic record shows *)
(* ===================================================================== *)

(** The strings printed for one logged value. *)
Definition logval_strings (v : logval) : list string :=
  match v with
  | VStr (Some s) => [s]
  | VStr None => []
  | VNum _ => []
  | VStrs (Some l) => l
  | VStrs None => []
  | VNat _ => []
  | VExn e =>
      exn_message e
      ++ match exn_response e with
         | Some (_, Some d) => [d]
         | _ => []
         end
  end.

(** The strings of a diagnostic record; the other events are not records. *)
Definition diagnostic_strings (e : event) : list string :=
  match e with
  | Console _ label payload =>
      label :: flat_map (fun p => fst p :: logval_strings (snd p)) payload
  | Logger _ m extra => m :: flat_map logval_strings extra
  | HttpPost _ _ => []
  | SendMail _ => []
  end.

(** Does a diagnostic record of the trace contain [secret] in full? *)
Definition discloses (secret : string) (t : list event) : bool :=
  existsb (fun e => existsb (Js.includes secret) (diagnostic_strings e)) t.

(* ===================================================================== *)
(** * Properties *)
(* ===================================================================== *)

(** ** Traces *)

Lemma sends_app (t1 t2 : list event) : sends (t1 ++ t2) = sends t1 ++ sends t2.
Proof.
  induction t1 as [|e t1 IH]; simpl; [reflexivity|].
  destruct e; simpl; rewrite IH; reflexivity.
Qed.

Lemma posts_app (t1 t2 : list event) : posts (t1 ++ t2) = posts t1 ++ posts t2.
Proof.
  induction t1 as [|e t1 IH]; simpl; [reflexivity|].
  destruct e; simpl; rewrite IH; reflexivity.
Qed.

Lemma truthy_token (token : string) :
  Js.truthy (Some token) = false <-> token = EmptyString.
Proof.
  simpl. destruct (String.eqb_spec token EmptyString); simpl; split; congruence.
Qed.

Lemma strict_eq_true (a b : option string) : strict_eq a b = true <-> a = b.
Proof.
  destruct a as [x|], b as [y|]; simpl; split; try congruence.
  - intros H. apply String.eqb_eq in H. congruence.
  - intros H. inversion H. apply String.eqb_refl.
Qed.

Lemma Qlt_bool_false (a b : Q) : Qlt_bool a b = false <-> (b <= a)%Q.
Proof.
  unfold Qlt_bool. rewrite negb_false_iff. apply Qle_bool_iff.
Qed.

Lemma Qlt_bool_true (a b : Q) : Qlt_bool a b = true <-> (a < b)%Q.
Proof.
  unfold Qlt_bool. rewrite negb_true_iff. split.
  - intros H. apply Qnot_le_lt. intros Hle.
    apply Qle_bool_iff in Hle. congruence.
  - intros H. destruct (Qle_bool b a) eqn:E; [|reflexivity].
    apply Qle_bool_iff in E. exfalso. exact (Qlt_not_le _ _ H E).
Qed.

(** ** The verification gate *)

Section VerifyFacts.
Variable w : World.
Variable this : RecaptchaService.t.

Import RecaptchaService.

(** With no token, [verify] throws inside its own [try] block and its
    [catch] block turns that into [false]: the error is logged (and, the
    exception having a [response] property, a second record with no status
    and no data), and the scoring service is not called. *)
Lemma verify_no_token (expectedAction : option string) (minScore : option Q) :
  verify w this EmptyString expectedAction minScore
  = ([Console LError "Error verifying reCAPTCHA Enterprise token:"
        [("error", VExn (HttpException "reCAPTCHA token is required" BAD_REQUEST))];
      Console LError "reCAPTCHA Enterprise API error:"
        [("status", VNat None); ("data", VStr None)]],
     Return false).
Proof. reflexivity. Qed.

(** [verify] never raises: it returns a boolean whatever happens. *)
Lemma verify_total (token : string) (ea : option string) (ms : option Q) :
  exists b, outcome (verify w this token ea ms) = Return b.
Proof.
  unfold verify, assess, post, warn_invalid.
  destruct (Js.truthy (Some token)); simpl; [|eauto].
  destruct (httpService_post w _ _) as [[data|]|m r]; simpl.
  - destruct (tokenProperties data) as [tp|]; simpl; [|eauto].
    destruct (valid tp); simpl; [|eauto].
    destruct (Js.truthy ea && negb (strict_eq (action tp) ea)); simpl; [eauto|].
    destruct (Qlt_bool _ _); simpl; eauto.
  - eauto.
  - unfold verify_catch; simpl. destruct r; simpl; eauto.
Qed.

(** [verify] never calls the mail client. *)
Lemma verify_sends (token : string) (ea : option string) (ms : option Q) :
  sends (trace (verify w this token ea ms)) = [].
Proof.
  unfold verify, assess, post, warn_invalid.
  destruct (Js.truthy (Some token)); simpl; [|reflexivity].
  destruct (httpService_post w _ _) as [[data|]|m r]; simpl.
  - destruct (tokenProperties data) as [tp|]; simpl; [|reflexivity].
    destruct (valid tp); simpl; [|reflexivity].
    destruct (Js.truthy ea && negb (strict_eq (action tp) ea)); simpl;
      [reflexivity|].
    destruct (Qlt_bool _ _); reflexivity.
  - reflexivity.
  - unfold verify_catch; simpl. destruct r; reflexivity.
Qed.

(** With a token, exactly one request goes to the scoring service. *)
Lemma verify_posts (token : string) (ea : option string) (ms : option Q) :
  token <> EmptyString ->
  posts (trace (verify w this token ea ms)) = [requestBody w token ea].
Proof.
  intros Htok. unfold verify, assess, post, warn_invalid.
  destruct (Js.truthy (Some token)) eqn:Et;
    [|apply truthy_token in Et; contradiction].
  simpl.
  destruct (httpService_post w _ _) as [[data|]|m r]; simpl.
  - destruct (tokenProperties data) as [tp|]; simpl; [|reflexivity].
    destruct (valid tp); simpl; [|reflexivity].
    destruct (Js.truthy ea && negb (strict_eq (action tp) ea)); simpl;
      [reflexivity|].
    destruct (Qlt_bool _ _); reflexivity.
  - reflexivity.
  - unfold verify_catch; simpl. destruct r; reflexivity.
Qed.

(** When [verify] returns [true]: the token was there, the scoring
    service answered, the token is valid, the action is the expected one
    (when one is expected) and the score reaches the minimum. *)
Lemma verify_true_inv (token : string) (ea : option string) (ms : option Q) :
  outcome (verify w this token ea ms) = Return true ->
  token <> EmptyString /\
  exists data tp,
    httpService_post w (requestUrl this) (requestBody w token ea)
      = Responded (Some data) /\
    tokenProperties data = Some tp /\
    valid tp = true /\
    (Js.truthy ea = true -> action tp = ea) /\
    (orDefault ms <= score_of data)%Q.
Proof.
  unfold verify, assess, post, warn_invalid.
  destruct (Js.truthy (Some token)) eqn:Et; simpl; [|discriminate].
  intros H. split.
  { intros ->. discriminate Et. }
  destruct (httpService_post w _ _) as [[data|]|m r]; simpl in H.
  - destruct (tokenProperties data) as [tp|] eqn:Etp; simpl in H; [|discriminate].
    destruct (valid tp) eqn:Ev; simpl in H; [|discriminate].
    destruct (Js.truthy ea && negb (strict_eq (action tp) ea)) eqn:Ea;
      simpl in H; [discriminate|].
    destruct (Qlt_bool _ _) eqn:Es; simpl in H; [discriminate|].
    exists data, tp. repeat split; auto.
    + intros Hea. rewrite Hea in Ea. simpl in Ea.
      apply negb_false_iff in Ea. apply strict_eq_true; assumption.
    + apply Qlt_bool_false; assumption.
  - discriminate.
  - unfold verify_catch in H; simpl in H. destruct r; discriminate.
Qed.

(** The converse: these conditions make [verify] return [true]. *)
Lemma verify_true_intro (token : string) (ea : option string) (ms : option Q)
      (data : RecaptchaEnterpriseResponse) (tp : TokenProperties) :
  token <> EmptyString ->
  httpService_post w (requestUrl this) (requestBody w token ea)
    = Responded (Some data) ->
  tokenProperties data = Some tp ->
  valid tp = true ->
  (Js.truthy ea = true -> action tp = ea) ->
  (orDefault ms <= score_of data)%Q ->
  outcome (verify w this token ea ms) = Return true.
Proof.
  intros Htok Hpost Htp Hv Ha Hs.
  unfold verify, assess, post, warn_invalid.
  destruct (Js.truthy (Some token)) eqn:Et;
    [|apply truthy_token in Et; contradiction].
  simpl. rewrite Hpost. simpl. rewrite Htp, Hv. simpl.
  assert (Js.truthy ea && negb (strict_eq (action tp) ea) = false) as ->.
  { destruct (Js.truthy ea); [|reflexivity]. simpl.
    apply negb_false_iff, strict_eq_true. auto. }
  apply Qlt_bool_false in Hs. rewrite Hs. reflexivity.
Qed.

(** Failing closed: a network error, a malformed response, an invalid
    token, an action mismatch or a score below the minimum each make
    [verify] return [false]. *)
Lemma verify_fails_closed (token : string) (ea : option string) (ms : option Q) :
  token <> EmptyString ->
  (forall data tp,
      httpService_post w (requestUrl this) (requestBody w token ea)
        = Responded (Some data) ->
      tokenProperties data = Some tp ->
      valid tp = false
      \/ (Js.truthy ea = true /\ action tp <> ea)
      \/ (score_of data < orDefault ms)%Q) ->
  outcome (verify w this token ea ms) = Return false.
Proof.
  intros Htok Hbad.
  destruct (verify_total token ea ms) as [[|] Hb]; [|assumption].
  exfalso. apply verify_true_inv in Hb.
  destruct Hb as (_ & data & tp & Hp & Htp & Hv & Ha & Hs).
  destruct (Hbad data tp Hp Htp) as [H|[[H1 H2]|H]].
  - congruence.
  - auto.
  - exact (Qlt_not_le _ _ H Hs).
Qed.

End VerifyFacts.

(** ** The handler, case by case *)

Section HandlerFacts.
Variable w : World.
Variable this : RecaptchaService.t.

Import MailerController.

Lemma prepareEmailContent_throws (data : MailerDto) (e : exn) :
  prepareEmailContent w data = Throw e ->
  e = Error "ADMIN_EMAIL environment variable is not configured".
Proof.
  unfold prepareEmailContent.
  destruct (negb (Js.truthy (ADMIN_EMAIL w))); congruence.
Qed.

Lemma prepareEmailContent_configured (data : MailerDto) :
  Js.truthy (ADMIN_EMAIL w) = true ->
  exists c, prepareEmailContent w data = Return c.
Proof.
  intros H. unfold prepareEmailContent. rewrite H. simpl. eauto.
Qed.

(** No token: a client error, nothing sent, the gate not even called. *)
Lemma sendMail_no_token (mailerDto : MailerDto) (request : Request) :
  Js.truthy (recaptchaToken mailerDto) = false ->
  outcome (sendMail w this mailerDto request)
    = Throw (BadRequestException ["Security verification is required"])
  /\ sends (trace (sendMail w this mailerDto request)) = []
  /\ posts (trace (sendMail w this mailerDto request)) = [].
Proof.
  intros H. unfold sendMail. rewrite H. simpl. auto.
Qed.

(** The gate says no: an authorization error, nothing sent. *)
Lemma sendMail_rejected (mailerDto : MailerDto) (request : Request) :
  Js.truthy (recaptchaToken mailerDto) = true ->
  outcome (gateCall w this mailerDto) = Return false ->
  outcome (sendMail w this mailerDto request)
    = Throw (UnauthorizedException "Security verification failed. Please try again.")
  /\ sends (trace (sendMail w this mailerDto request)) = [].
Proof.
  intros Ht Hg. unfold sendMail. rewrite Ht. simpl.
  pose proof (verify_sends w this (Js.interp (recaptchaToken mailerDto))
                (Some "contact_form") (Some (1 # 2)%Q)) as Hs.
  unfold gateCall in Hg.
  destruct (RecaptchaService.verify _ _ _ _ _) as [tv r].
  simpl in Hg, Hs. subst r. simpl.
  split; [reflexivity|].
  rewrite !sends_app, Hs. reflexivity.
Qed.

(** The gate says yes but no operator address is configured: a server
    error, nothing sent. *)
Lemma sendMail_unconfigured (mailerDto : MailerDto) (request : Request) (e : exn) :
  Js.truthy (recaptchaToken mailerDto) = true ->
  outcome (gateCall w this mailerDto) = Return true ->
  prepareEmailContent w (sanitizeInput mailerDto) = Throw e ->
  outcome (sendMail w this mailerDto request) = Throw technicalDifficulties
  /\ sends (trace (sendMail w this mailerDto request)) = [].
Proof.
  intros Ht Hg Hc.
  pose proof (prepareEmailContent_throws _ _ Hc) as ->.
  unfold sendMail. rewrite Ht. simpl.
  pose proof (verify_sends w this (Js.interp (recaptchaToken mailerDto))
                (Some "contact_form") (Some (1 # 2)%Q)) as Hs.
  unfold gateCall in Hg.
  destruct (RecaptchaService.verify _ _ _ _ _) as [tv r].
  simpl in Hg, Hs. subst r. simpl. rewrite Hc. simpl.
  split; [reflexivity|].
  rewrite !sends_app, Hs. reflexivity.
Qed.

(** The gate says yes and the messages are composed: both sends are
    attempted, the operator's first, and the reply depends on the
    operator's send alone. *)
Lemma sendMail_verified (mailerDto : MailerDto) (request : Request)
      (c : EmailContent) :
  Js.truthy (recaptchaToken mailerDto) = true ->
  outcome (gateCall w this mailerDto) = Return true ->
  prepareEmailContent w (sanitizeInput mailerDto) = Return c ->
  sends (trace (sendMail w this mailerDto request)) = [admin c; user c]
  /\ outcome (sendMail w this mailerDto request)
     = match mailerService_sendMail w (admin c) with
       | Fulfilled => Return successReply
       | Rejected _ => Throw technicalDifficulties
       end.
Proof.
  intros Ht Hg Hc.
  unfold sendMail. rewrite Ht. simpl.
  pose proof (verify_sends w this (Js.interp (recaptchaToken mailerDto))
                (Some "contact_form") (Some (1 # 2)%Q)) as Hs.
  unfold gateCall in Hg.
  destruct (RecaptchaService.verify _ _ _ _ _) as [tv r].
  simpl in Hg, Hs. subst r. simpl. rewrite Hc. simpl.
  unfold sendEmails, callSendMail. simpl.
  destruct (mailerService_sendMail w (admin c)) as [|ra];
    destruct (mailerService_sendMail w (user c)) as [|ru]; simpl;
    (split; [rewrite !sends_app, Hs; reflexivity | reflexivity]).
Qed.

(** A tolerated submitter failure leaves a warning in the log. *)
Lemma sendMail_user_failure_logged (mailerDto : MailerDto) (request : Request)
      (c : EmailContent) (reason : string) :
  Js.truthy (recaptchaToken mailerDto) = true ->
  outcome (gateCall w this mailerDto) = Return true ->
  prepareEmailContent w (sanitizeInput mailerDto) = Return c ->
  mailerService_sendMail w (admin c) = Fulfilled ->
  mailerService_sendMail w (user c) = Rejected reason ->
  In (Logger LWarn "Failed to send user confirmation email" [VStr (Some reason)])
     (trace (sendMail w this mailerDto request)).
Proof.
  intros Ht Hg Hc Ha Hu.
  unfold sendMail. rewrite Ht. simpl.
  unfold gateCall in Hg.
  destruct (RecaptchaService.verify _ _ _ _ _) as [tv r].
  simpl in Hg. subst r. simpl. rewrite Hc. simpl.
  unfold sendEmails, callSendMail. simpl. rewrite Ha, Hu. simpl.
  right. apply in_or_app. right. simpl. auto.
Qed.

(** What the pipe lets through has passed every field validation, and in
    particular carries a token. *)
Lemma pipe_return (body mailerDto : MailerDto) :
  Dto.ValidationPipe w body = Return mailerDto ->
  mailerDto = Dto.whitelist (Dto.transform body)
  /\ Dto.validate w mailerDto = [].
Proof.
  unfold Dto.ValidationPipe.
  destruct (Dto.validate w (Dto.whitelist (Dto.transform body))) eqn:E;
    intros H; inversion H; subst; auto.
Qed.

Lemma pipe_throw (body : MailerDto) (e : exn) :
  Dto.ValidationPipe w body = Throw e ->
  e = BadRequestException (Dto.validate w (Dto.whitelist (Dto.transform body)))
  /\ Dto.validate w (Dto.whitelist (Dto.transform body)) <> [].
Proof.
  unfold Dto.ValidationPipe.
  destruct (Dto.validate w (Dto.whitelist (Dto.transform body))) eqn:E;
    intros H; inversion H; subst; split; auto; discriminate.
Qed.

Lemma validate_violated (d : MailerDto) (msg : string) :
  In (false, msg) (Dto.constraints w d) -> In msg (Dto.validate w d).
Proof.
  intros H. unfold Dto.validate. apply in_flat_map.
  exists (false, msg). split; [assumption | simpl; auto].
Qed.

Lemma validate_passed (d : MailerDto) (msg : string) :
  Dto.validate w d = [] ->
  forall ok, In (ok, msg) (Dto.constraints w d) -> ok = true.
Proof.
  intros Hnil [|] Hin; [reflexivity|].
  apply validate_violated in Hin. rewrite Hnil in Hin. destruct Hin.
Qed.

Lemma validate_token (d : MailerDto) :
  Dto.validate w d = [] -> Js.truthy (recaptchaToken d) = true.
Proof.
  intros H.
  apply (validate_passed d "Security verification is required" H).
  unfold Dto.constraints. simpl. intuition.
Qed.

(** A request stopped by the pipe reaches neither the gate nor the mail
    client. *)
Lemma handle_invalid (body : MailerDto) (request : Request) (e : exn) :
  Dto.ValidationPipe w body = Throw e ->
  handle w this body request = ([], Throw e).
Proof. intros H. unfold handle. rewrite H. reflexivity. Qed.

Lemma handle_valid (body mailerDto : MailerDto) (request : Request) :
  Dto.ValidationPipe w body = Return mailerDto ->
  handle w this body request = sendMail w this mailerDto request.
Proof. intros H. unfold handle. rewrite H. reflexivity. Qed.

End HandlerFacts.

(** ** The dispatch invariant *)

(** C1.  No email send is attempted unless every field validation has
    passed and the verification gate has returned true: whenever the trace
    of a request contains a call to the mail client, the pipe accepted the
    request with no violated constraint, the gate returned [true], and the
    scoring service declared the token valid, issued for the action
    "contact_form", with a score of at least 0.5. *)
Theorem no_send_unless_validated_and_verified
        (w : World) (this : RecaptchaService.t)
        (body : MailerDto) (request : Request) :
  sends (trace (MailerController.handle w this body request)) <> [] ->
  exists mailerDto data tp,
    Dto.ValidationPipe w body = Return mailerDto
    /\ Dto.validate w mailerDto = []
    /\ outcome (gateCall w this mailerDto) = Return true
    /\ httpService_post w (RecaptchaService.requestUrl this)
         (RecaptchaService.requestBody w
            (Js.interp (recaptchaToken mailerDto)) (Some "contact_form"))
       = Responded (Some data)
    /\ tokenProperties data = Some tp
    /\ valid tp = true
    /\ action tp = Some "contact_form"
    /\ (1 # 2 <= RecaptchaService.score_of data)%Q.
Proof.
  intros Hsent.
  destruct (Dto.ValidationPipe w body) as [mailerDto|e] eqn:Hpipe.
  2:{ rewrite (handle_invalid w this body request e Hpipe) in Hsent.
      simpl in Hsent. congruence. }
  rewrite (handle_valid w this body mailerDto request Hpipe) in Hsent.
  destruct (pipe_return w body mailerDto Hpipe) as [_ Hvalid].
  pose proof (validate_token w mailerDto Hvalid) as Htok.
  destruct (verify_total w this (Js.interp (recaptchaToken mailerDto))
              (Some "contact_form") (Some (1 # 2)%Q)) as [b Hb].
  destruct b.
  - pose proof Hb as Hinv. apply verify_true_inv in Hinv.
    destruct Hinv as (_ & data & tp & Hp & Htp & Hv & Ha & Hs).
    exists mailerDto, data, tp. repeat split; auto.
  - destruct (sendMail_rejected w this mailerDto request Htok Hb) as [_ Hnone].
    congruence.
Qed.

Lemma no_send_unless_validated_and_verified_witness :
  sends (trace (MailerController.handle Examples.passing Examples.service
                  Examples.jane Examples.request)) <> []
  /\ exists mailerDto data tp,
      Dto.ValidationPipe Examples.passing Examples.jane = Return mailerDto
      /\ Dto.validate Examples.passing mailerDto = []
      /\ outcome (gateCall Examples.passing Examples.service mailerDto) = Return true
      /\ httpService_post Examples.passing
           (RecaptchaService.requestUrl Examples.service)
           (RecaptchaService.requestBody Examples.passing
              (Js.interp (recaptchaToken mailerDto)) (Some "contact_form"))
         = Responded (Some data)
      /\ tokenProperties data = Some tp
      /\ valid tp = true
      /\ action tp = Some "contact_form"
      /\ (1 # 2 <= RecaptchaService.score_of data)%Q.
Proof.
  split.
  - vm_compute. discriminate.
  - apply (no_send_unless_validated_and_verified Examples.passing
             Examples.service Examples.jane Examples.request).
    vm_compute. discriminate.
Defined.

(** A request stopped at validation performs no call to the mail client
    and is answered with the client error of the pipe. *)
Lemma rejected_at_validation_sends_nothing
      (w : World) (this : RecaptchaService.t)
      (body : MailerDto) (request : Request) (e : exn) :
  Dto.ValidationPipe w body = Throw e ->
  sends (trace (MailerController.handle w this body request)) = []
  /\ exists messages,
      messages <> []
      /\ respond (outcome (MailerController.handle w this body request))
         = Fail BAD_REQUEST messages.
Proof.
  intros Hpipe. rewrite (handle_invalid w this body request e Hpipe).
  destruct (pipe_throw w body e Hpipe) as [-> Hne].
  split; [reflexivity|]. eexists. split; [exact Hne | reflexivity].
Qed.

(** A request stopped at verification performs no call to the mail client
    and is answered with the authorization error, which shows neither the
    score nor the reason. *)
Lemma rejected_at_verification_sends_nothing
      (w : World) (this : RecaptchaService.t)
      (body mailerDto : MailerDto) (request : Request) :
  Dto.ValidationPipe w body = Return mailerDto ->
  outcome (gateCall w this mailerDto) = Return false ->
  sends (trace (MailerController.handle w this body request)) = []
  /\ respond (outcome (MailerController.handle w this body request))
     = Fail UNAUTHORIZED ["Security verification failed. Please try again."].
Proof.
  intros Hpipe Hgate. rewrite (handle_valid w this body mailerDto request Hpipe).
  destruct (pipe_return w body mailerDto Hpipe) as [_ Hvalid].
  pose proof (validate_token w mailerDto Hvalid) as Htok.
  destruct (sendMail_rejected w this mailerDto request Htok Hgate) as [Ho Hs].
  rewrite Ho, Hs. auto.
Qed.

(** ** Dispatch: the two failure policies *)

(** C2.  If the operator-notification send fails, the handler answers with
    the server error (status 500 and the generic message), whatever
    becomes of the submitter-confirmation send, and both sends have been
    attempted: the operator's failure does not keep the submitter's send
    from being made. *)
Theorem operator_failure_is_fatal
        (w : World) (this : RecaptchaService.t)
        (body mailerDto : MailerDto) (request : Request)
        (c : EmailContent) (reason : string) :
  Dto.ValidationPipe w body = Return mailerDto ->
  outcome (gateCall w this mailerDto) = Return true ->
  MailerController.prepareEmailContent w
    (MailerController.sanitizeInput mailerDto) = Return c ->
  mailerService_sendMail w (admin c) = Rejected reason ->
  respond (outcome (MailerController.handle w this body request))
    = Fail 500
        ["We are currently experiencing technical difficulties. Please try again later or contact us directly."]
  /\ sends (trace (MailerController.handle w this body request))
     = [admin c; user c].
Proof.
  intros Hpipe Hgate Hc Hadmin.
  rewrite (handle_valid w this body mailerDto request Hpipe).
  destruct (pipe_return w body mailerDto Hpipe) as [_ Hvalid].
  pose proof (validate_token w mailerDto Hvalid) as Htok.
  destruct (sendMail_verified w this mailerDto request c Htok Hgate Hc)
    as [Hs Ho].
  rewrite Ho, Hs, Hadmin. split; reflexivity.
Qed.

(** C3.  If the operator-notification send succeeds and the
    submitter-confirmation send fails, the handler answers with the
    success reply, unchanged; the failure only leaves a warning in the
    log. *)
Theorem submitter_failure_is_tolerated
        (w : World) (this : RecaptchaService.t)
        (body mailerDto : MailerDto) (request : Request)
        (c : EmailContent) (reason : string) :
  Dto.ValidationPipe w body = Return mailerDto ->
  outcome (gateCall w this mailerDto) = Return true ->
  MailerController.prepareEmailContent w
    (MailerController.sanitizeInput mailerDto) = Return c ->
  mailerService_sendMail w (admin c) = Fulfilled ->
  mailerService_sendMail w (user c) = Rejected reason ->
  respond (outcome (MailerController.handle w this body request))
    = Ok {| success := true;
            reply_message :=
              "Your message has been sent successfully. We will get back to you soon!" |}
  /\ sends (trace (MailerController.handle w this body request))
     = [admin c; user c]
  /\ In (Logger LWarn "Failed to send user confirmation email"
           [VStr (Some reason)])
        (trace (MailerController.handle w this body request)).
Proof.
  intros Hpipe Hgate Hc Hadmin Huser.
  rewrite (handle_valid w this body mailerDto request Hpipe).
  destruct (pipe_return w body mailerDto Hpipe) as [_ Hvalid].
  pose proof (validate_token w mailerDto Hvalid) as Htok.
  destruct (sendMail_verified w this mailerDto request c Htok Hgate Hc)
    as [Hs Ho].
  rewrite Ho, Hs, Hadmin. repeat split.
  exact (sendMail_user_failure_logged w this mailerDto request c reason
           Htok Hgate Hc Hadmin Huser).
Qed.

(** ** The gate: missing token, missing score, missing action *)

(** C4 (what the code does with a missing token).  [verify] called with an
    empty token does not report a "token required" condition to its
    caller: the exception it throws is caught by its own [catch] block, so
    the call returns [false] like every other failure, after its error
    records and without any call to the scoring service. *)
Theorem missing_token_is_answered_false
        (w : World) (this : RecaptchaService.t)
        (expectedAction : option string) (minScore : option Q) :
  outcome (RecaptchaService.verify w this EmptyString expectedAction minScore)
    = Return false
  /\ posts (trace (RecaptchaService.verify w this EmptyString expectedAction minScore))
     = []
  /\ trace (RecaptchaService.verify w this EmptyString expectedAction minScore)
     = [Console LError "Error verifying reCAPTCHA Enterprise token:"
          [("error",
            VExn (HttpException "reCAPTCHA token is required" BAD_REQUEST))];
        Console LError "reCAPTCHA Enterprise API error:"
          [("status", VNat None); ("data", VStr None)]].
Proof.
  rewrite verify_no_token. repeat split.
Qed.

(** C9.  When the scoring service marks the token valid but sends no
    risk score, [verify] takes the score to be 0 and returns [false] for
    every minimum score above 0. *)
Theorem missing_score_fails_closed
        (w : World) (this : RecaptchaService.t)
        (token : string) (expectedAction : option string) (minScore : option Q)
        (data : RecaptchaEnterpriseResponse) (tp : TokenProperties) :
  httpService_post w (RecaptchaService.requestUrl this)
    (RecaptchaService.requestBody w token expectedAction)
  = Responded (Some data) ->
  tokenProperties data = Some tp ->
  valid tp = true ->
  riskAnalysis data = None
  \/ (exists ra, riskAnalysis data = Some ra /\ score ra = None) ->
  (0 < RecaptchaService.orDefault minScore)%Q ->
  RecaptchaService.score_of data = 0%Q
  /\ outcome (RecaptchaService.verify w this token expectedAction minScore)
     = Return false.
Proof.
  intros Hpost Htp Hv Hnone Hmin.
  assert (RecaptchaService.score_of data = 0%Q) as H0.
  { unfold RecaptchaService.score_of.
    destruct Hnone as [-> | (ra & -> & ->)]; reflexivity. }
  split; [exact H0|].
  destruct (verify_total w this token expectedAction minScore) as [[|] Hb];
    [|assumption].
  exfalso. apply verify_true_inv in Hb.
  destruct Hb as (_ & data' & tp' & Hp' & _ & _ & _ & Hs).
  rewrite Hpost in Hp'. inversion Hp'; subst data'.
  rewrite H0 in Hs. exact (Qlt_not_le _ _ Hmin Hs).
Qed.

Lemma missing_score_fails_closed_witness :
  RecaptchaService.score_of
    {| tokenProperties :=
         Some {| valid := true; invalidReason := None;
                 hostname := Some "example.com";
                 action := Some "contact_form" |};
       riskAnalysis := Some {| score := None; reasons := Some [] |} |} = 0%Q
  /\ outcome (RecaptchaService.verify Examples.unscored Examples.service
                "tok123" (Some "contact_form") (Some (1 # 2)%Q))
     = Return false.
Proof.
  apply (missing_score_fails_closed Examples.unscored Examples.service
           "tok123" (Some "contact_form") (Some (1 # 2)%Q) _
           {| valid := true; invalidReason := None;
              hostname := Some "example.com";
              action := Some "contact_form" |}).
  - reflexivity.
  - reflexivity.
  - reflexivity.
  - right. eexists. split; reflexivity.
  - reflexivity.
Defined.

(** C10.  When [expectedAction] is omitted or empty, the request sent to
    the scoring service carries the expected action "submit", and the
    action check is skipped: a valid token with a sufficient score makes
    [verify] return [true] whatever action the token was issued for. *)
Theorem omitted_action_defaults_and_skips_check
        (w : World) (this : RecaptchaService.t)
        (token : string) (expectedAction : option string) (minScore : option Q) :
  token <> EmptyString ->
  missingOrEmpty expectedAction ->
  posts (trace (RecaptchaService.verify w this token expectedAction minScore))
    = [{| ev_token := token;
          ev_siteKey := RECAPTCHA_SITE_KEY w;
          ev_expectedAction := Some "submit" |}]
  /\ forall data tp,
      httpService_post w (RecaptchaService.requestUrl this)
        {| ev_token := token;
           ev_siteKey := RECAPTCHA_SITE_KEY w;
           ev_expectedAction := Some "submit" |}
      = Responded (Some data) ->
      tokenProperties data = Some tp ->
      valid tp = true ->
      (RecaptchaService.orDefault minScore <= RecaptchaService.score_of data)%Q ->
      outcome (RecaptchaService.verify w this token expectedAction minScore)
      = Return true.
Proof.
  intros Htok Hea.
  assert (Js.truthy expectedAction = false) as Hfalsy.
  { destruct Hea as [-> | ->]; reflexivity. }
  assert (RecaptchaService.requestBody w token expectedAction
          = {| ev_token := token;
               ev_siteKey := RECAPTCHA_SITE_KEY w;
               ev_expectedAction := Some "submit" |}) as Hbody.
  { unfold RecaptchaService.requestBody, Js.or. rewrite Hfalsy. reflexivity. }
  split.
  - rewrite (verify_posts w this token expectedAction minScore Htok).
    rewrite Hbody. reflexivity.
  - intros data tp Hpost Htp Hv Hs.
    apply (verify_true_intro w this token expectedAction minScore data tp);
      auto.
    + rewrite Hbody. exact Hpost.
    + rewrite Hfalsy. discriminate.
Qed.

Lemma omitted_action_defaults_and_skips_check_witness :
  posts (trace (RecaptchaService.verify Examples.otherAction Examples.service
                  "tok123" None (Some (1 # 2)%Q)))
    = [{| ev_token := "tok123";
          ev_siteKey := Some "site";
          ev_expectedAction := Some "submit" |}]
  /\ outcome (RecaptchaService.verify Examples.otherAction Examples.service
                "tok123" None (Some (1 # 2)%Q))
     = Return true.
Proof.
  destruct (omitted_action_defaults_and_skips_check Examples.otherAction
              Examples.service "tok123" None (Some (1 # 2)%Q))
    as [Hposts Htrue].
  - discriminate.
  - left. reflexivity.
  - split; [exact Hposts|].
    eapply Htrue; try reflexivity.
    vm_compute. discriminate.
Defined.

(** ** The token in the diagnostic records *)

Lemma substring0_short (n : nat) (s : string) :
  String.length s <= n -> Js.substring0 n s = s.
Proof.
  unfold Js.substring0. revert n.
  induction s as [|c s IH]; intros [|n] H; simpl in *; try reflexivity; try lia.
  rewrite IH by lia. reflexivity.
Qed.

Lemma prefix_append (s t : string) : prefix s (s ++ t) = true.
Proof.
  induction s as [|c s IH]; simpl.
  - destruct t; reflexivity.
  - destruct (ascii_dec c c); [assumption | congruence].
Qed.

Lemma includes_of_prefix (needle hay : string) :
  prefix needle hay = true -> Js.includes needle hay = true.
Proof. intros H. destruct hay; simpl in *; rewrite H; reflexivity. Qed.

Lemma includes_append (needle a b : string) :
  Js.includes needle (a ++ needle ++ b) = true.
Proof.
  induction a as [|c a IH].
  - change (EmptyString ++ needle ++ b)%string with (needle ++ b)%string.
    apply includes_of_prefix. apply prefix_append.
  - change (String c a ++ needle ++ b)%string
      with (String c (a ++ needle ++ b)%string).
    simpl. rewrite IH. apply orb_true_r.
Qed.

Lemma discloses_intro (secret s : string) (e : event) (t : list event) :
  In e t -> In s (diagnostic_strings e) -> Js.includes secret s = true ->
  discloses secret t = true.
Proof.
  intros He Hs Hinc. unfold discloses. apply existsb_exists.
  exists e. split; [assumption|]. apply existsb_exists.
  exists s. split; assumption.
Qed.

(** The record written for an invalid token. *)
Lemma invalid_token_trace
      (w : World) (this : RecaptchaService.t)
      (token : string) (expectedAction : option string) (minScore : option Q)
      (data : RecaptchaEnterpriseResponse) :
  token <> EmptyString ->
  httpService_post w (RecaptchaService.requestUrl this)
    (RecaptchaService.requestBody w token expectedAction)
  = Responded (Some data) ->
  (forall tp, tokenProperties data = Some tp -> valid tp = false) ->
  exists reason,
    trace (RecaptchaService.verify w this token expectedAction minScore)
    = [HttpPost (RecaptchaService.requestUrl this)
         (RecaptchaService.requestBody w token expectedAction);
       Console LWarn "reCAPTCHA Enterprise token invalid:"
         [("reason", VStr reason);
          ("token", VStr (Some (Js.substring0 20 token ++ "...")%string))]].
Proof.
  intros Htok Hpost Hinvalid.
  unfold RecaptchaService.verify, RecaptchaService.assess,
    RecaptchaService.post, RecaptchaService.warn_invalid.
  destruct (Js.truthy (Some token)) eqn:Et;
    [|apply truthy_token in Et; contradiction].
  simpl. rewrite Hpost. simpl.
  destruct (tokenProperties data) as [tp|] eqn:Etp; simpl.
  - rewrite (Hinvalid tp eq_refl). exists (invalidReason tp). reflexivity.
  - exists None. reflexivity.
Qed.

(** That record shows the first 20 characters of the token, which is all
    of it for a token of at most 20. *)
Lemma short_token_is_logged_in_full
      (w : World) (this : RecaptchaService.t)
      (token : string) (expectedAction : option string) (minScore : option Q)
      (data : RecaptchaEnterpriseResponse) :
  token <> EmptyString ->
  String.length token <= 20 ->
  httpService_post w (RecaptchaService.requestUrl this)
    (RecaptchaService.requestBody w token expectedAction)
  = Responded (Some data) ->
  (forall tp, tokenProperties data = Some tp -> valid tp = false) ->
  discloses token
    (trace (RecaptchaService.verify w this token expectedAction minScore))
  = true.
Proof.
  intros Htok Hlen Hpost Hinvalid.
  destruct (invalid_token_trace w this token expectedAction minScore data
              Htok Hpost Hinvalid) as [reason ->].
  eapply discloses_intro with (s := (Js.substring0 20 token ++ "...")%string).
  - right. left. reflexivity.
  - unfold diagnostic_strings, flat_map, logval_strings, fst, snd.
    destruct reason; simpl; auto 10.
  - rewrite (substring0_short 20 token Hlen).
    apply includes_of_prefix, prefix_append.
Qed.

(** C7 (what the code does with a short token).  For the token "tok123"
    and a scoring service that finds it invalid, the warning record that
    [verify] writes carries "tok123..." under [token]: the whole token
    value is in the diagnostic output. *)
Theorem short_token_appears_in_diagnostics :
  trace (RecaptchaService.verify Examples.tokenInvalid Examples.service
           "tok123" (Some "contact_form") (Some (1 # 2)%Q))
  = [HttpPost
       "https://recaptchaenterprise.googleapis.com/v1/projects/demo/assessments?key=key"
       {| ev_token := "tok123";
          ev_siteKey := Some "site";
          ev_expectedAction := Some "contact_form" |};
     Console LWarn "reCAPTCHA Enterprise token invalid:"
       [("reason", VStr (Some "MALFORMED"));
        ("token", VStr (Some "tok123..."))]]
  /\ discloses "tok123"
       (trace (RecaptchaService.verify Examples.tokenInvalid Examples.service
                 "tok123" (Some "contact_form") (Some (1 # 2)%Q)))
     = true.
Proof. split; vm_compute; reflexivity. Qed.

(** For a token of more than 23 characters the shortened form written to
    that record, 20 characters and three dots, is too short to contain it. *)
Lemma includes_length (needle hay : string) :
  Js.includes needle hay = true -> String.length needle <= String.length hay.
Proof.
  assert (forall a b, prefix a b = true -> String.length a <= String.length b)
    as Hpre.
  { induction a as [|c a IH]; intros [|d b] H; simpl in *; try lia;
      try discriminate.
    destruct (ascii_dec c d); [|discriminate].
    apply IH in H. lia. }
  induction hay as [|c hay IH]; intros H; cbn [Js.includes] in H.
  - rewrite orb_false_r in H. apply Hpre in H. exact H.
  - apply orb_true_iff in H. destruct H as [H|H].
    + apply Hpre in H. exact H.
    + apply IH in H. simpl. lia.
Qed.

Lemma length_append (a b : string) :
  String.length (a ++ b) = String.length a + String.length b.
Proof. induction a as [|c a IH]; simpl; [reflexivity | rewrite IH; reflexivity]. Qed.

Lemma long_token_is_shortened (token : string) :
  23 < String.length token ->
  Js.includes token (Js.substring0 20 token ++ "...") = false.
Proof.
  intros Hlen.
  destruct (Js.includes token (Js.substring0 20 token ++ "...")) eqn:E;
    [|reflexivity].
  apply includes_length in E.
  rewrite length_append in E.
  assert (String.length (Js.substring0 20 token) <= 20) as Hs.
  { unfold Js.substring0. clear. generalize 20 as n. revert token.
    induction token as [|c s IH]; intros [|n]; simpl; try lia.
    specialize (IH n). lia. }
  simpl in E. lia.
Qed.

(** ** Normalization of the text fields *)

Lemma append_empty_r (s : string) : (s ++ EmptyString)%string = s.
Proof. induction s as [|c s IH]; simpl; [reflexivity | rewrite IH; reflexivity]. Qed.

Lemma append_assoc (a b c : string) :
  ((a ++ b) ++ c)%string = (a ++ b ++ c)%string.
Proof. induction a as [|x a IH]; simpl; [reflexivity | rewrite IH; reflexivity]. Qed.

Lemma rev_append (a b : string) :
  Js.rev (a ++ b) = (Js.rev b ++ Js.rev a)%string.
Proof.
  induction a as [|x a IH]; simpl.
  - rewrite append_empty_r. reflexivity.
  - rewrite IH, append_assoc. reflexivity.
Qed.

Lemma rev_involutive (s : string) : Js.rev (Js.rev s) = s.
Proof.
  induction s as [|c s IH]; simpl; [reflexivity|].
  rewrite rev_append, IH. reflexivity.
Qed.

Lemma trimStart_clean (s : string) : startsClean (Js.trimStart s) = true.
Proof.
  induction s as [|c s IH]; simpl; [reflexivity|].
  destruct (Js.isWhiteSpace c) eqn:E; [assumption|].
  simpl. rewrite E. reflexivity.
Qed.

Lemma trimStart_of_clean (s : string) :
  startsClean s = true -> Js.trimStart s = s.
Proof.
  destruct s as [|c s]; simpl; [reflexivity|].
  intros H. apply negb_true_iff in H. rewrite H. reflexivity.
Qed.

Lemma trimStart_keeps_last (x : string) (c : ascii) :
  Js.isWhiteSpace c = false ->
  exists y, Js.trimStart (x ++ String c EmptyString)
            = (y ++ String c EmptyString)%string.
Proof.
  intros Hc. induction x as [|d x IH]; simpl.
  - rewrite Hc. exists EmptyString. reflexivity.
  - destruct (Js.isWhiteSpace d).
    + exact IH.
    + exists (String d x). reflexivity.
Qed.

Lemma trimEnd_keeps_clean (s : string) :
  startsClean s = true -> startsClean (Js.trimEnd s) = true.
Proof.
  destruct s as [|c s]; [reflexivity|].
  simpl. intros H. apply negb_true_iff in H.
  unfold Js.trimEnd. simpl.
  destruct (trimStart_keeps_last (Js.rev s) c H) as [y ->].
  rewrite rev_append. simpl. rewrite H. reflexivity.
Qed.

Lemma trimEnd_idempotent (s : string) : Js.trimEnd (Js.trimEnd s) = Js.trimEnd s.
Proof.
  unfold Js.trimEnd. rewrite rev_involutive.
  rewrite (trimStart_of_clean _ (trimStart_clean (Js.rev s))). reflexivity.
Qed.

(** [trim] is idempotent. *)
Lemma trim_idempotent (s : string) : Js.trim (Js.trim s) = Js.trim s.
Proof.
  unfold Js.trim.
  rewrite (trimStart_of_clean (Js.trimEnd (Js.trimStart s))).
  - apply trimEnd_idempotent.
  - apply trimEnd_keeps_clean, trimStart_clean.
Qed.

Lemma lowerChar_whiteSpace (c : ascii) :
  Js.isWhiteSpace (Js.lowerChar c) = Js.isWhiteSpace c.
Proof.
  destruct c as [[] [] [] [] [] [] [] []]; vm_compute; reflexivity.
Qed.

Lemma lowerChar_idempotent (c : ascii) :
  Js.lowerChar (Js.lowerChar c) = Js.lowerChar c.
Proof.
  destruct c as [[] [] [] [] [] [] [] []]; vm_compute; reflexivity.
Qed.

Lemma toLowerCase_idempotent (s : string) :
  Js.toLowerCase (Js.toLowerCase s) = Js.toLowerCase s.
Proof.
  induction s as [|c s IH]; simpl; [reflexivity|].
  rewrite lowerChar_idempotent, IH. reflexivity.
Qed.

Lemma toLowerCase_append (a b : string) :
  Js.toLowerCase (a ++ b) = (Js.toLowerCase a ++ Js.toLowerCase b)%string.
Proof. induction a as [|c a IH]; simpl; [reflexivity | rewrite IH; reflexivity]. Qed.

Lemma toLowerCase_rev (s : string) :
  Js.toLowerCase (Js.rev s) = Js.rev (Js.toLowerCase s).
Proof.
  induction s as [|c s IH]; simpl; [reflexivity|].
  rewrite toLowerCase_append, IH. reflexivity.
Qed.

Lemma toLowerCase_trimStart (s : string) :
  Js.toLowerCase (Js.trimStart s) = Js.trimStart (Js.toLowerCase s).
Proof.
  induction s as [|c s IH]; simpl; [reflexivity|].
  rewrite lowerChar_whiteSpace.
  destruct (Js.isWhiteSpace c); [exact IH | reflexivity].
Qed.

(** Lower-casing and trimming commute. *)
Lemma toLowerCase_trim (s : string) :
  Js.toLowerCase (Js.trim s) = Js.trim (Js.toLowerCase s).
Proof.
  unfold Js.trim, Js.trimEnd.
  rewrite toLowerCase_rev, toLowerCase_trimStart, toLowerCase_rev,
    toLowerCase_trimStart.
  reflexivity.
Qed.

(** Normalizing an address twice, as the pipe and then [sanitizeInput]
    do, is normalizing it once. *)
Lemma normalize_email_twice (s : string) :
  Js.toLowerCase (Js.trim (Js.toLowerCase (Js.trim s)))
  = Js.toLowerCase (Js.trim s).
Proof.
  rewrite (toLowerCase_trim s), trim_idempotent, toLowerCase_trim,
    toLowerCase_idempotent.
  reflexivity.
Qed.

(** What [sanitizeInput] makes of an object that came through the pipe:
    nothing changes any more. *)
Lemma sanitizeInput_after_pipe (body : MailerDto) :
  MailerController.sanitizeInput (Dto.whitelist (Dto.transform body))
  = Dto.whitelist (Dto.transform body).
Proof.
  unfold MailerController.sanitizeInput, Dto.whitelist, Dto.transform.
  simpl. f_equal.
  - destruct (firstName body); simpl; [rewrite trim_idempotent|]; reflexivity.
  - destruct (lastName body); simpl; [rewrite trim_idempotent|]; reflexivity.
  - destruct (email body); simpl; [rewrite normalize_email_twice|]; reflexivity.
Qed.

Example jane_email_normalized :
  Js.toLowerCase (Js.trim "JANE@x.com ") = "jane@x.com".
Proof. reflexivity. Qed.

(** ** Required fields *)

(** A declared property that is missing or empty stops the request at the
    pipe: nothing is sent, and the client error names the property's
    "required" constraint. *)
Lemma missing_declared_field_is_rejected
      (w : World) (this : RecaptchaService.t)
      (body : MailerDto) (request : Request) (f : field) :
  missingOrEmpty (get f body) ->
  sends (trace (MailerController.handle w this body request)) = []
  /\ exists messages,
      In (requiredMessage f) messages
      /\ respond (outcome (MailerController.handle w this body request))
         = Fail BAD_REQUEST messages.
Proof.
  intros Hmiss.
  assert (In (requiredMessage f)
             (Dto.validate w (Dto.whitelist (Dto.transform body)))) as Hin.
  { apply validate_violated. unfold Dto.constraints.
    destruct f; simpl in Hmiss; destruct Hmiss as [H|H]; simpl; rewrite H;
      simpl; auto 25. }
  unfold MailerController.handle, Dto.ValidationPipe.
  destruct (Dto.validate w (Dto.whitelist (Dto.transform body))) as [|m ms].
  - destruct Hin.
  - split; [reflexivity|]. exists (m :: ms). split; [exact Hin | reflexivity].
Qed.

(** The pipe, and so the whole route, is blind to the [message] property of
    the body: whatever it is, it is neither checked nor passed on. *)
Lemma pipe_ignores_message
      (w : World) (this : RecaptchaService.t)
      (body : MailerDto) (request : Request) (m : option string) :
  Dto.ValidationPipe w (withMessage m body) = Dto.ValidationPipe w body
  /\ MailerController.handle w this (withMessage m body) request
     = MailerController.handle w this body request.
Proof. split; reflexivity. Qed.

Lemma pipe_strips_message
      (w : World) (body mailerDto : MailerDto) :
  Dto.ValidationPipe w body = Return mailerDto -> message mailerDto = None.
Proof.
  intros H. destruct (pipe_return w body mailerDto H) as [-> _]. reflexivity.
Qed.

(** C5 (what the code does without a message).  The class declares no
    [message] property, so the pipe neither requires it nor lets it
    through: the example request is accepted, with two sends and the
    success reply, whether its [message] is missing, empty or anything
    else. *)
Theorem request_without_message_is_accepted (m : option string) :
  Dto.ValidationPipe Examples.passing (Examples.janeWith m)
    = Return Examples.janeDto
  /\ respond (outcome (MailerController.handle Examples.passing Examples.service
                         (Examples.janeWith m) Examples.request))
     = Ok MailerController.successReply
  /\ sends (trace (MailerController.handle Examples.passing Examples.service
                     (Examples.janeWith m) Examples.request))
     = [admin Examples.janeContent; user Examples.janeContent].
Proof. repeat split; vm_compute; reflexivity. Qed.

(** ** The composed messages *)

Lemma includes_skip (needle a t : string) :
  Js.includes needle t = true -> Js.includes needle (a ++ t) = true.
Proof.
  intros H. induction a as [|c a IH]; [exact H|].
  change (String c a ++ t)%string with (String c (a ++ t)%string).
  cbn [Js.includes]. rewrite IH. apply orb_true_r.
Qed.

Lemma includes_head (needle t : string) :
  Js.includes needle (needle ++ t) = true.
Proof. apply includes_of_prefix, prefix_append. Qed.

Lemma includes_self (needle : string) : Js.includes needle needle = true.
Proof.
  rewrite <- (append_empty_r needle) at 2. apply includes_head.
Qed.

Lemma includes_cons (needle t : string) (c : ascii) :
  Js.includes needle t = true -> Js.includes needle (String c t) = true.
Proof. intros H. cbn [Js.includes]. rewrite H. apply orb_true_r. Qed.

(** Find [needle] among the pieces of a concatenation. *)
Ltac find_piece :=
  rewrite ?append_assoc; cbn [append];
  repeat first [ apply includes_head | apply includes_self
               | apply includes_cons | apply includes_skip ].

(** The operator's message shows the name, the address and the
    [message] property of the object it is composed from. *)
Lemma operator_body_shows_name_email_message
      (w : World) (data : MailerDto) (c : EmailContent) :
  MailerController.prepareEmailContent w data = Return c ->
  Js.includes (Js.interp (firstName data)) (msg_text (admin c)) = true
  /\ Js.includes (Js.interp (lastName data)) (msg_text (admin c)) = true
  /\ Js.includes (Js.interp (email data)) (msg_text (admin c)) = true
  /\ Js.includes (Js.interp (message data)) (msg_text (admin c)) = true.
Proof.
  unfold MailerController.prepareEmailContent.
  destruct (negb (Js.truthy (ADMIN_EMAIL w))); [discriminate|].
  intros [= <-].
  cbn [admin msg_text]. unfold MailerController.adminText.
  repeat split; find_piece.
Qed.

(** The operator's message does not depend on the phone number, the pet
    type or the dates of the object it is composed from. *)
Lemma operator_body_ignores_phone_petType_dates
      (w : World) (data : MailerDto) (p t d : option string) :
  MailerController.prepareEmailContent w
    {| firstName := firstName data; lastName := lastName data;
       email := email data; phone := p; petType := t; dates := d;
       recaptchaToken := recaptchaToken data; message := message data |}
  = MailerController.prepareEmailContent w data.
Proof. reflexivity. Qed.

Lemma prefix_three (a b c r : string) :
  prefix (a ++ b ++ c) (a ++ b ++ c ++ r) = true.
Proof.
  rewrite <- (append_assoc b c r), <- (append_assoc a (b ++ c) r).
  apply prefix_append.
Qed.

(** The acknowledgment template opens by greeting the name it is given;
    nothing else in it varies. *)
Lemma userText_greets (userName : string) :
  prefix ("Hi " ++ userName ++ ",") (MailerController.userText userName) = true.
Proof. unfold MailerController.userText. apply prefix_three. Qed.

(** The submitter's message is the acknowledgment template with the first
    and last name in its greeting, addressed to the submitter. *)
Lemma submitter_body_is_the_template
      (w : World) (data : MailerDto) (c : EmailContent) :
  MailerController.prepareEmailContent w data = Return c ->
  msg_to (user c) = email data
  /\ msg_subject (user c) = "Confirmation: Your message has been received"
  /\ msg_text (user c)
     = MailerController.userText
         (Js.interp (firstName data) ++ " " ++ Js.interp (lastName data))
  /\ prefix ("Hi " ++ (Js.interp (firstName data) ++ " "
                       ++ Js.interp (lastName data)) ++ ",")
       (msg_text (user c)) = true.
Proof.
  unfold MailerController.prepareEmailContent.
  destruct (negb (Js.truthy (ADMIN_EMAIL w))); [discriminate|].
  intros [= <-].
  cbn [user msg_to msg_subject msg_text]. repeat split.
  apply userText_greets.
Qed.

(** The test-only controller does put the phone number, the pet type and
    the dates into the operator's message. *)
Lemma legacy_operator_body_shows_phone_petType_dates
      (w : World) (mailerDto : MailerDto) :
  Js.includes (Js.interp (phone mailerDto))
    (msg_text (Legacy.adminMessage w mailerDto)) = true
  /\ Js.includes (Js.interp (petType mailerDto))
       (msg_text (Legacy.adminMessage w mailerDto)) = true
  /\ Js.includes (Js.interp (dates mailerDto))
       (msg_text (Legacy.adminMessage w mailerDto)) = true.
Proof.
  cbn [Legacy.adminMessage msg_text].
  unfold Legacy.adminText, Legacy.messageText.
  repeat split; find_piece.
Qed.

(** C6 (what the code composes).  For the example request, validated and
    verified, the operator's message is the one below: it shows the name
    and the address, "undefined" for the message, and neither the phone
    number "555-1234", nor the pet type "dog", nor the dates "Jul 1-5". *)
Theorem operator_body_leaves_out_phone_petType_dates :
  Dto.ValidationPipe Examples.passing Examples.jane = Return Examples.janeDto
  /\ outcome (gateCall Examples.passing Examples.service Examples.janeDto)
     = Return true
  /\ MailerController.prepareEmailContent Examples.passing
       (MailerController.sanitizeInput Examples.janeDto)
     = Return Examples.janeContent
  /\ msg_text (admin Examples.janeContent)
     = ("New contact form submission received:" ++ Js.LF
        ++ Js.LF
        ++ "Contact Information:" ++ Js.LF
        ++ "- Name: Jane Doe" ++ Js.LF
        ++ "- Email: jane@x.com" ++ Js.LF
        ++ "- Message: undefined" ++ Js.LF
        ++ Js.LF
        ++ "Please respond to the customer within 24 hours.")%string
  /\ Js.includes "555-1234" (msg_text (admin Examples.janeContent)) = false
  /\ Js.includes "dog" (msg_text (admin Examples.janeContent)) = false
  /\ Js.includes "Jul 1-5" (msg_text (admin Examples.janeContent)) = false.
Proof. repeat split; vm_compute; reflexivity. Qed.

(** ** A valid, verified request *)

(** C8 (counterexample).  "Every valid request whose token verifies gets
    exactly two sends and a success reply" does not hold as it stands: with the
    example request, accepted by the pipe and by the gate, and a mail
    client that fails for the operator's address, the reply is the server
    error. *)
Lemma verified_request_may_get_server_error :
  ~ (forall (w : World) (this : RecaptchaService.t)
            (body mailerDto : MailerDto) (request : Request),
        Dto.ValidationPipe w body = Return mailerDto ->
        outcome (gateCall w this mailerDto) = Return true ->
        List.length (sends (trace (MailerController.handle w this body request))) = 2
        /\ exists reply,
            respond (outcome (MailerController.handle w this body request))
            = Ok reply).
Proof.
  intros H.
  destruct (H Examples.operatorDown Examples.service Examples.jane
              Examples.janeDto Examples.request) as [_ [reply Hreply]].
  - vm_compute. reflexivity.
  - vm_compute. reflexivity.
  - vm_compute in Hreply. discriminate Hreply.
Qed.

(** C8 (amended).  For every valid request whose token verifies, when the
    operator's address is configured: the two messages are composed,
    exactly two sends are attempted (the operator's, then the
    submitter's), and the reply is the success reply when the operator's
    send succeeds (the server error otherwise).  The address used in the
    two messages is the submitted one, trimmed and lower-cased. *)
Theorem verified_request_is_dispatched
        (w : World) (this : RecaptchaService.t)
        (body mailerDto : MailerDto) (request : Request) :
  Dto.ValidationPipe w body = Return mailerDto ->
  outcome (gateCall w this mailerDto) = Return true ->
  Js.truthy (ADMIN_EMAIL w) = true ->
  exists c,
    MailerController.prepareEmailContent w
      (MailerController.sanitizeInput mailerDto) = Return c
    /\ sends (trace (MailerController.handle w this body request))
       = [admin c; user c]
    /\ respond (outcome (MailerController.handle w this body request))
       = match mailerService_sendMail w (admin c) with
         | Fulfilled => Ok MailerController.successReply
         | Rejected _ =>
             Fail 500
               ["We are currently experiencing technical difficulties. Please try again later or contact us directly."]
         end
    /\ msg_to (user c)
       = Js.optChain (fun s => Js.toLowerCase (Js.trim s)) (email body)
    /\ Js.includes
         (Js.interp (Js.optChain (fun s => Js.toLowerCase (Js.trim s)) (email body)))
         (msg_text (admin c)) = true.
Proof.
  intros Hpipe Hgate Hadmin.
  rewrite (handle_valid w this body mailerDto request Hpipe).
  destruct (pipe_return w body mailerDto Hpipe) as [Hdto Hvalid].
  pose proof (validate_token w mailerDto Hvalid) as Htok.
  destruct (prepareEmailContent_configured w
              (MailerController.sanitizeInput mailerDto) Hadmin) as [c Hc].
  destruct (sendMail_verified w this mailerDto request c Htok Hgate Hc)
    as [Hs Ho].
  destruct (submitter_body_is_the_template w _ c Hc) as (Hto & _).
  destruct (operator_body_shows_name_email_message w _ c Hc)
    as (_ & _ & Hemail & _).
  assert (email (MailerController.sanitizeInput mailerDto)
          = Js.optChain (fun s => Js.toLowerCase (Js.trim s)) (email body))
    as Hnorm.
  { rewrite Hdto, sanitizeInput_after_pipe. reflexivity. }
  exists c. rewrite Hs, Ho, Hto, <- Hnorm.
  repeat split; auto.
  destruct (mailerService_sendMail w (admin c)); reflexivity.
Qed.

Lemma verified_request_is_dispatched_witness :
  exists c,
    MailerController.prepareEmailContent Examples.passing
      (MailerController.sanitizeInput Examples.janeDto) = Return c
    /\ sends (trace (MailerController.handle Examples.passing Examples.service
                       Examples.jane Examples.request))
       = [admin c; user c]
    /\ respond (outcome (MailerController.handle Examples.passing
                           Examples.service Examples.jane Examples.request))
       = match mailerService_sendMail Examples.passing (admin c) with
         | Fulfilled => Ok MailerController.successReply
         | Rejected _ =>
             Fail 500
               ["We are currently experiencing technical difficulties. Please try again later or contact us directly."]
         end
    /\ msg_to (user c)
       = Js.optChain (fun s => Js.toLowerCase (Js.trim s)) (email Examples.jane)
    /\ Js.includes
         (Js.interp (Js.optChain (fun s => Js.toLowerCase (Js.trim s))
                       (email Examples.jane)))
         (msg_text (admin c)) = true.
Proof.
  apply (verified_request_is_dispatched Examples.passing Examples.service
           Examples.jane Examples.janeDto Examples.request).
  - vm_compute. reflexivity.
  - vm_compute. reflexivity.
  - reflexivity.
Defined.

(** The worked example: the address "JANE@x.com " reaches both messages as
    "jane@x.com", two sends are attempted and the reply is the success
    reply. *)
Example jane_is_dispatched :
  sends (trace (MailerController.handle Examples.passing Examples.service
                  Examples.jane Examples.request))
    = [admin Examples.janeContent; user Examples.janeContent]
  /\ msg_to (user Examples.janeContent) = Some "jane@x.com"
  /\ Js.includes "jane@x.com" (msg_text (admin Examples.janeContent)) = true
  /\ respond (outcome (MailerController.handle Examples.passing Examples.service
                         Examples.jane Examples.request))
     = Ok MailerController.successReply.
Proof. repeat split; vm_compute; reflexivity. Qed.

(** ** Witnesses of the dispatch policies *)

Lemma operator_failure_is_fatal_witness :
  respond (outcome (MailerController.handle Examples.operatorDown
                      Examples.service Examples.jane Examples.request))
    = Fail 500
        ["We are currently experiencing technical difficulties. Please try again later or contact us directly."]
  /\ sends (trace (MailerController.handle Examples.operatorDown
                     Examples.service Examples.jane Examples.request))
     = [admin Examples.janeContent; user Examples.janeContent].
Proof.
  apply (operator_failure_is_fatal Examples.operatorDown Examples.service
           Examples.jane Examples.janeDto Examples.request
           Examples.janeContent "SMTP down").
  - vm_compute. reflexivity.
  - vm_compute. reflexivity.
  - vm_compute. reflexivity.
  - vm_compute. reflexivity.
Defined.

Lemma submitter_failure_is_tolerated_witness :
  respond (outcome (MailerController.handle Examples.submitterDown
                      Examples.service Examples.jane Examples.request))
    = Ok {| success := true;
            reply_message :=
              "Your message has been sent successfully. We will get back to you soon!" |}
  /\ sends (trace (MailerController.handle Examples.submitterDown
                     Examples.service Examples.jane Examples.request))
     = [admin Examples.janeContent; user Examples.janeContent]
  /\ In (Logger LWarn "Failed to send user confirmation email"
           [VStr (Some "mailbox unknown")])
        (trace (MailerController.handle Examples.submitterDown
                  Examples.service Examples.jane Examples.request)).
Proof.
  apply (submitter_failure_is_tolerated Examples.submitterDown Examples.service
           Examples.jane Examples.janeDto Examples.request
           Examples.janeContent "mailbox unknown").
  - vm_compute. reflexivity.
  - vm_compute. reflexivity.
  - vm_compute. reflexivity.
  - vm_compute. reflexivity.
  - vm_compute. reflexivity.
Defined.

(* ===================================================================== *)
(** * Further properties of the code *)
(* ===================================================================== *)

(** ** The verification gate *)

(** X1.  [verify] returns [true] exactly when the token is not empty, the
    scoring service answered with a body whose token properties say
    valid, the action is the expected one (when a non-empty one is
    expected), and the score, 0 when absent, reaches the minimum. *)
Theorem verify_accepts_exactly_when
        (w : World) (this : RecaptchaService.t)
        (token : string) (expectedAction : option string) (minScore : option Q) :
  outcome (RecaptchaService.verify w this token expectedAction minScore)
    = Return true
  <-> (token <> EmptyString
       /\ exists data tp,
           httpService_post w (RecaptchaService.requestUrl this)
             (RecaptchaService.requestBody w token expectedAction)
           = Responded (Some data)
           /\ tokenProperties data = Some tp
           /\ valid tp = true
           /\ (Js.truthy expectedAction = true -> action tp = expectedAction)
           /\ (RecaptchaService.orDefault minScore
               <= RecaptchaService.score_of data)%Q).
Proof.
  split.
  - apply verify_true_inv.
  - intros (Htok & data & tp & Hp & Htp & Hv & Ha & Hs).
    exact (verify_true_intro w this token expectedAction minScore data tp
             Htok Hp Htp Hv Ha Hs).
Qed.

(** X2.  Whatever the token, the arguments and the scoring service do,
    [verify] ends with a boolean and never with an exception, calls the
    scoring service at most once and the mail client never. *)
Theorem verify_never_raises_or_sends
        (w : World) (this : RecaptchaService.t)
        (token : string) (expectedAction : option string) (minScore : option Q) :
  (exists b,
      outcome (RecaptchaService.verify w this token expectedAction minScore)
      = Return b)
  /\ List.length
       (posts (trace (RecaptchaService.verify w this token expectedAction minScore)))
     <= 1
  /\ sends (trace (RecaptchaService.verify w this token expectedAction minScore))
     = [].
Proof.
  split; [apply verify_total|]. split; [|apply verify_sends].
  destruct (String.eqb_spec token EmptyString) as [-> | Hne].
  - rewrite verify_no_token. simpl. lia.
  - rewrite (verify_posts w this token expectedAction minScore Hne).
    simpl. lia.
Qed.

(** X3.  When the call to the scoring service fails, [verify] returns
    [false] and leaves the error in the log; when the failure carries the
    response of the server, a second record gives its status and data. *)
Theorem verify_network_failure_is_logged
        (w : World) (this : RecaptchaService.t)
        (token : string) (expectedAction : option string) (minScore : option Q)
        (m : string) (r : option ErrorResponse) :
  token <> EmptyString ->
  httpService_post w (RecaptchaService.requestUrl this)
    (RecaptchaService.requestBody w token expectedAction) = Failed m r ->
  RecaptchaService.verify w this token expectedAction minScore
  = (HttpPost (RecaptchaService.requestUrl this)
       (RecaptchaService.requestBody w token expectedAction)
     :: Console LError "Error verifying reCAPTCHA Enterprise token:"
          [("error", VExn (RequestError m r))]
     :: match r with
        | Some response =>
            [Console LError "reCAPTCHA Enterprise API error:"
               [("status", VNat (Some (err_status response)));
                ("data", VStr (Some (err_data response)))]]
        | None => []
        end,
     Return false).
Proof.
  intros Htok Hpost.
  unfold RecaptchaService.verify, RecaptchaService.assess, RecaptchaService.post.
  destruct (Js.truthy (Some token)) eqn:Et;
    [|apply truthy_token in Et; contradiction].
  simpl. rewrite Hpost. simpl.
  unfold RecaptchaService.verify_catch. destruct r; reflexivity.
Qed.

Lemma verify_network_failure_is_logged_witness :
  RecaptchaService.verify Examples.serviceError Examples.service "tok123"
    (Some "contact_form") None
  = ([HttpPost (RecaptchaService.requestUrl Examples.service)
        (RecaptchaService.requestBody Examples.serviceError "tok123"
           (Some "contact_form"));
      Console LError "Error verifying reCAPTCHA Enterprise token:"
        [("error",
          VExn (RequestError "Request failed with status code 503"
                  (Some {| err_status := 503; err_data := "unavailable" |})))];
      Console LError "reCAPTCHA Enterprise API error:"
        [("status", VNat (Some 503)); ("data", VStr (Some "unavailable"))]],
     Return false).
Proof.
  apply (verify_network_failure_is_logged Examples.serviceError
           Examples.service "tok123" (Some "contact_form") None
           "Request failed with status code 503"
           (Some {| err_status := 503; err_data := "unavailable" |})).
  - discriminate.
  - reflexivity.
Defined.

(** X4.  A valid token issued for another action than the non-empty
    expected one is refused whatever its score: [verify] returns [false]
    after one warning that shows the expected and the actual action. *)
Theorem verify_action_mismatch_rejected
        (w : World) (this : RecaptchaService.t)
        (token : string) (expectedAction : option string) (minScore : option Q)
        (data : RecaptchaEnterpriseResponse) (tp : TokenProperties) :
  token <> EmptyString ->
  Js.truthy expectedAction = true ->
  httpService_post w (RecaptchaService.requestUrl this)
    (RecaptchaService.requestBody w token expectedAction)
  = Responded (Some data) ->
  tokenProperties data = Some tp ->
  valid tp = true ->
  action tp <> expectedAction ->
  RecaptchaService.verify w this token expectedAction minScore
  = ([HttpPost (RecaptchaService.requestUrl this)
        (RecaptchaService.requestBody w token expectedAction);
      Console LWarn "reCAPTCHA Enterprise action mismatch:"
        [("expected", VStr expectedAction); ("actual", VStr (action tp))]],
     Return false).
Proof.
  intros Htok Hea Hpost Htp Hv Hneq.
  unfold RecaptchaService.verify, RecaptchaService.assess, RecaptchaService.post.
  destruct (Js.truthy (Some token)) eqn:Et;
    [|apply truthy_token in Et; contradiction].
  simpl. rewrite Hpost. simpl. rewrite Htp, Hv, Hea. simpl.
  destruct (strict_eq (action tp) expectedAction) eqn:E.
  - apply strict_eq_true in E. contradiction.
  - reflexivity.
Qed.

Lemma verify_action_mismatch_rejected_witness :
  RecaptchaService.verify Examples.otherAction Examples.service "tok123"
    (Some "contact_form") (Some (1 # 2)%Q)
  = ([HttpPost (RecaptchaService.requestUrl Examples.service)
        (RecaptchaService.requestBody Examples.otherAction "tok123"
           (Some "contact_form"));
      Console LWarn "reCAPTCHA Enterprise action mismatch:"
        [("expected", VStr (Some "contact_form"));
         ("actual", VStr (Some "login"))]],
     Return false).
Proof.
  eapply (verify_action_mismatch_rejected Examples.otherAction Examples.service
           "tok123" (Some "contact_form") (Some (1 # 2)%Q) _
           {| valid := true; invalidReason := None;
              hostname := Some "example.com"; action := Some "login" |}).
  - discriminate.
  - reflexivity.
  - reflexivity.
  - reflexivity.
  - reflexivity.
  - discriminate.
Defined.

(** X5.  Lowering the minimum score never turns an acceptance into a
    refusal: a call that returns [true] for one minimum returns [true] for
    every smaller one. *)
Theorem verify_threshold_monotone
        (w : World) (this : RecaptchaService.t)
        (token : string) (expectedAction : option string) (m m' : Q) :
  outcome (RecaptchaService.verify w this token expectedAction (Some m))
    = Return true ->
  (m' <= m)%Q ->
  outcome (RecaptchaService.verify w this token expectedAction (Some m'))
    = Return true.
Proof.
  intros Hm Hle. apply verify_true_inv in Hm.
  destruct Hm as (Htok & data & tp & Hp & Htp & Hv & Ha & Hs).
  apply (verify_true_intro w this token expectedAction (Some m') data tp);
    auto.
  simpl in *. exact (Qle_trans _ _ _ Hle Hs).
Qed.

Lemma verify_threshold_monotone_witness :
  outcome (RecaptchaService.verify Examples.passing Examples.service "tok123"
             (Some "contact_form") (Some (1 # 10)%Q))
  = Return true.
Proof.
  apply (verify_threshold_monotone Examples.passing Examples.service "tok123"
           (Some "contact_form") (1 # 2)%Q (1 # 10)%Q).
  - reflexivity.
  - vm_compute. discriminate.
Defined.

(** X6.  With a minimum score of 0 or less, a valid token of the expected
    action is accepted even when the answer carries no risk analysis at
    all: the substituted score 0 reaches the minimum. *)
Theorem verify_nonpositive_threshold_accepts_unscored
        (w : World) (this : RecaptchaService.t)
        (token : string) (expectedAction : option string) (minScore : option Q)
        (data : RecaptchaEnterpriseResponse) (tp : TokenProperties) :
  token <> EmptyString ->
  httpService_post w (RecaptchaService.requestUrl this)
    (RecaptchaService.requestBody w token expectedAction)
  = Responded (Some data) ->
  tokenProperties data = Some tp ->
  valid tp = true ->
  (Js.truthy expectedAction = true -> action tp = expectedAction) ->
  riskAnalysis data = None ->
  (RecaptchaService.orDefault minScore <= 0)%Q ->
  outcome (RecaptchaService.verify w this token expectedAction minScore)
    = Return true.
Proof.
  intros Htok Hpost Htp Hv Ha Hno Hmin.
  apply (verify_true_intro w this token expectedAction minScore data tp);
    auto.
  unfold RecaptchaService.score_of. rewrite Hno. exact Hmin.
Qed.

Lemma verify_nonpositive_threshold_accepts_unscored_witness :
  outcome (RecaptchaService.verify
             (Examples.world
                (fun _ => Responded (Some
                   {| tokenProperties :=
                        Some {| valid := true; invalidReason := None;
                                hostname := None;
                                action := Some "contact_form" |};
                      riskAnalysis := None |}))
                Examples.allDelivered None)
             Examples.service "tok123" (Some "contact_form") (Some 0%Q))
  = Return true.
Proof.
  eapply (verify_nonpositive_threshold_accepts_unscored _ Examples.service
            "tok123" (Some "contact_form") (Some 0%Q)).
  - discriminate.
  - reflexivity.
  - reflexivity.
  - reflexivity.
  - reflexivity.
  - reflexivity.
  - vm_compute. discriminate.
Defined.

(** X7.  [getAssessment] never raises.  It returns the answer of the
    scoring service when there is a token and the call succeeds, and
    [null] otherwise; with no token the scoring service is not called. *)
Theorem getAssessment_returns_data_or_null
        (w : World) (this : RecaptchaService.t) (token : string) :
  (exists r, outcome (RecaptchaService.getAssessment w this token) = Return r)
  /\ (forall data,
         outcome (RecaptchaService.getAssessment w this token)
           = Return (Some data)
         <-> token <> EmptyString
             /\ httpService_post w (RecaptchaService.requestUrl this)
                  {| ev_token := token;
                     ev_siteKey := RECAPTCHA_SITE_KEY w;
                     ev_expectedAction := None |}
                = Responded (Some data))
  /\ (token = EmptyString ->
      posts (trace (RecaptchaService.getAssessment w this token)) = [])
  /\ sends (trace (RecaptchaService.getAssessment w this token)) = [].
Proof.
  unfold RecaptchaService.getAssessment, RecaptchaService.post.
  destruct (Js.truthy (Some token)) eqn:Et; simpl.
  - assert (token <> EmptyString) as Hne.
    { intros ->. discriminate Et. }
    destruct (httpService_post w _ _) as [d|m r]; simpl.
    + split; [eauto|]. split; [|split; [intros ->; contradiction | reflexivity]].
      intros data. split.
      * intros [= ->]. auto.
      * intros [_ [= ->]]. reflexivity.
    + split; [eauto|]. split; [|split; [intros ->; contradiction | reflexivity]].
      intros data. split.
      * discriminate.
      * intros [_ H]. discriminate H.
  - apply truthy_token in Et. subst token.
    split; [eauto|]. split; [|split; reflexivity].
    intros data. split.
    + discriminate.
    + intros [H _]. contradiction.
Qed.

(** X8.  Every request that [verify] sends to the scoring service carries
    the token as given and a non-empty expected action: the one asked
    for, or "submit". *)
Theorem verify_always_names_an_action
        (w : World) (this : RecaptchaService.t)
        (token : string) (expectedAction : option string) (minScore : option Q)
        (body : AssessmentEvent) :
  In body
     (posts (trace (RecaptchaService.verify w this token expectedAction minScore))) ->
  ev_token body = token
  /\ token <> EmptyString
  /\ ev_siteKey body = RECAPTCHA_SITE_KEY w
  /\ Js.truthy (ev_expectedAction body) = true
  /\ (ev_expectedAction body = expectedAction
      \/ ev_expectedAction body = Some "submit").
Proof.
  destruct (String.eqb_spec token EmptyString) as [-> | Hne].
  - rewrite verify_no_token. simpl. intros [].
  - rewrite (verify_posts w this token expectedAction minScore Hne).
    intros [<- | []]. unfold RecaptchaService.requestBody, Js.or. simpl.
    destruct (Js.truthy expectedAction) eqn:E; auto 6.
Qed.

Lemma verify_always_names_an_action_witness :
  ev_token (RecaptchaService.requestBody Examples.passing "tok123" None)
    = "tok123"
  /\ "tok123" <> EmptyString
  /\ ev_siteKey (RecaptchaService.requestBody Examples.passing "tok123" None)
     = RECAPTCHA_SITE_KEY Examples.passing
  /\ Js.truthy
       (ev_expectedAction
          (RecaptchaService.requestBody Examples.passing "tok123" None)) = true
  /\ (ev_expectedAction
        (RecaptchaService.requestBody Examples.passing "tok123" None) = None
      \/ ev_expectedAction
           (RecaptchaService.requestBody Examples.passing "tok123" None)
         = Some "submit").
Proof.
  apply (verify_always_names_an_action Examples.passing Examples.service
           "tok123" None (Some (1 # 2)%Q)).
  vm_compute. left. reflexivity.
Defined.

(** ** The constructor of the service *)

(** X9.  A service that was constructed has a non-empty project
    identifier and a non-empty API key, both taken from the
    configuration, and its URL is the assessments URL of that project. *)
Theorem new_yields_configured_service
        (w : World) (this : RecaptchaService.t) :
  RecaptchaService.new w = Return this ->
  RECAPTCHA_PROJECT_ID w = Some (RecaptchaService.projectId this)
  /\ RecaptchaService.projectId this <> EmptyString
  /\ RECAPTCHA_API_KEY w = Some (RecaptchaService.apiKey this)
  /\ RecaptchaService.apiKey this <> EmptyString
  /\ RecaptchaService.recaptchaEnterpriseUrl this
     = ("https://recaptchaenterprise.googleapis.com/v1/projects/"
        ++ RecaptchaService.projectId this ++ "/assessments")%string.
Proof.
  unfold RecaptchaService.new.
  destruct (RECAPTCHA_PROJECT_ID w) as [p|]; simpl; [|discriminate].
  destruct (String.eqb_spec p EmptyString); simpl; [discriminate|].
  destruct (RECAPTCHA_API_KEY w) as [k|]; simpl; [|discriminate].
  destruct (String.eqb_spec k EmptyString); simpl; [discriminate|].
  intros [= <-]. simpl. auto.
Qed.

Lemma new_yields_configured_service_witness :
  RECAPTCHA_PROJECT_ID Examples.passing
    = Some (RecaptchaService.projectId Examples.service)
  /\ RecaptchaService.projectId Examples.service <> EmptyString
  /\ RECAPTCHA_API_KEY Examples.passing
     = Some (RecaptchaService.apiKey Examples.service)
  /\ RecaptchaService.apiKey Examples.service <> EmptyString
  /\ RecaptchaService.recaptchaEnterpriseUrl Examples.service
     = ("https://recaptchaenterprise.googleapis.com/v1/projects/"
        ++ RecaptchaService.projectId Examples.service ++ "/assessments")%string.
Proof.
  apply (new_yields_configured_service Examples.passing Examples.service).
  reflexivity.
Defined.

(** X10.  Without a project identifier, or without an API key, the
    constructor throws; when the project identifier is missing, that is
    the setting the error names, whatever the API key. *)
Theorem new_refuses_missing_settings (w : World) :
  Js.truthy (RECAPTCHA_PROJECT_ID w) = false
  \/ Js.truthy (RECAPTCHA_API_KEY w) = false ->
  exists m,
    RecaptchaService.new w = Throw (Error m)
    /\ (Js.truthy (RECAPTCHA_PROJECT_ID w) = false ->
        m = "RECAPTCHA_PROJECT_ID is not defined in environment variables")
    /\ (Js.truthy (RECAPTCHA_PROJECT_ID w) = true ->
        m = "RECAPTCHA_API_KEY is not defined in environment variables").
Proof.
  intros H. unfold RecaptchaService.new.
  destruct (Js.truthy (RECAPTCHA_PROJECT_ID w)) eqn:Ep; simpl.
  - destruct H as [H|H]; [discriminate|]. rewrite H. simpl.
    eexists. split; [reflexivity|]. split; [discriminate | reflexivity].
  - eexists. split; [reflexivity|]. split; [reflexivity | discriminate].
Qed.

Lemma new_refuses_missing_settings_witness :
  exists m,
    RecaptchaService.new
      {| RECAPTCHA_PROJECT_ID := Some EmptyString;
         RECAPTCHA_API_KEY := None;
         RECAPTCHA_SITE_KEY := None;
         ADMIN_EMAIL := None;
         httpService_post := fun _ _ => Failed "unreachable" None;
         mailerService_sendMail := Examples.allDelivered;
         isEmail := Examples.isEmailSketch |} = Throw (Error m)
    /\ (Js.truthy (Some EmptyString) = false ->
        m = "RECAPTCHA_PROJECT_ID is not defined in environment variables")
    /\ (Js.truthy (Some EmptyString) = true ->
        m = "RECAPTCHA_API_KEY is not defined in environment variables").
Proof.
  apply (new_refuses_missing_settings
           {| RECAPTCHA_PROJECT_ID := Some EmptyString;
              RECAPTCHA_API_KEY := None;
              RECAPTCHA_SITE_KEY := None;
              ADMIN_EMAIL := None;
              httpService_post := fun _ _ => Failed "unreachable" None;
              mailerService_sendMail := Examples.allDelivered;
              isEmail := Examples.isEmailSketch |}).
  left. reflexivity.
Defined.

(** ** The client address *)

Lemma or_truthy (a b : option string) :
  Js.truthy b = true -> Js.truthy (Js.or a b) = true.
Proof. intros H. unfold Js.or. destruct (Js.truthy a) eqn:E; assumption. Qed.

Lemma interp_truthy (v : option string) :
  Js.truthy v = true -> Js.interp v <> EmptyString.
Proof.
  destruct v as [s|]; simpl; [|discriminate].
  destruct (String.eqb_spec s EmptyString); simpl; congruence.
Qed.

(** X11.  [getClientIp] never returns the empty string: when the request
    gives no address at all, the answer is "unknown". *)
Theorem getClientIp_never_empty (request : Request) :
  MailerController.getClientIp request <> EmptyString
  /\ (Js.truthy (req_ip request) = false ->
      Js.truthy (connection_remoteAddress request) = false ->
      Js.truthy (socket_remoteAddress request) = false ->
      Js.truthy (x_forwarded_for request) = false ->
      MailerController.getClientIp request = "unknown").
Proof.
  split.
  - unfold MailerController.getClientIp.
    apply interp_truthy. do 4 apply or_truthy. reflexivity.
  - intros H1 H2 H3 H4. unfold MailerController.getClientIp, Js.or.
    rewrite H1, H2, H3.
    destruct (x_forwarded_for request) as [s|]; [|reflexivity].
    simpl in H4. apply negb_false_iff in H4. apply String.eqb_eq in H4.
    subst s. reflexivity.
Qed.

(** X12.  When the request has an address of its own ([ip], or the remote
    address of the connection or of the socket), the forwarded-for header
    has no say: the client address is the same whatever the header. *)
Theorem getClientIp_ignores_header_when_address_known
        (ip conn sock fwd fwd' : option string) :
  Js.truthy ip || Js.truthy conn || Js.truthy sock = true ->
  MailerController.getClientIp
    {| req_ip := ip; connection_remoteAddress := conn;
       socket_remoteAddress := sock; x_forwarded_for := fwd |}
  = MailerController.getClientIp
      {| req_ip := ip; connection_remoteAddress := conn;
         socket_remoteAddress := sock; x_forwarded_for := fwd' |}.
Proof.
  intros H. unfold MailerController.getClientIp, Js.or. simpl.
  destruct (Js.truthy ip); [reflexivity|].
  destruct (Js.truthy conn); [reflexivity|].
  destruct (Js.truthy sock); [reflexivity | discriminate].
Qed.

Lemma getClientIp_ignores_header_when_address_known_witness :
  MailerController.getClientIp
    {| req_ip := None; connection_remoteAddress := Some "203.0.113.7";
       socket_remoteAddress := None; x_forwarded_for := None |}
  = MailerController.getClientIp
      {| req_ip := None; connection_remoteAddress := Some "203.0.113.7";
         socket_remoteAddress := None;
         x_forwarded_for := Some "10.9.8.7, 10.0.0.1" |}.
Proof.
  apply (getClientIp_ignores_header_when_address_known
           None (Some "203.0.113.7") None None (Some "10.9.8.7, 10.0.0.1")).
  reflexivity.
Defined.

Lemma beforeComma_no_comma (s : string) :
  Js.includes "," (Js.beforeComma s) = false.
Proof.
  induction s as [|c s IH]; [reflexivity|].
  cbn [Js.beforeComma].
  destruct (Ascii.eqb_spec c ","%char) as [-> | Hne]; [reflexivity|].
  cbn [Js.includes]. rewrite IH, orb_false_r.
  cbn [prefix]. destruct (ascii_dec ","%char c); [congruence | reflexivity].
Qed.

(** X13.  When the request has no address of its own, the client address
    is the first entry of the forwarded-for header, up to its first comma,
    or "unknown" when that entry is empty; it never contains a comma. *)
Theorem getClientIp_takes_first_forwarded_entry
        (ip conn sock : option string) (header : string) :
  Js.truthy ip = false ->
  Js.truthy conn = false ->
  Js.truthy sock = false ->
  MailerController.getClientIp
    {| req_ip := ip; connection_remoteAddress := conn;
       socket_remoteAddress := sock; x_forwarded_for := Some header |}
  = (if (Js.beforeComma header =? EmptyString)%string
     then "unknown" else Js.beforeComma header)
  /\ Js.includes ","
       (MailerController.getClientIp
          {| req_ip := ip; connection_remoteAddress := conn;
             socket_remoteAddress := sock; x_forwarded_for := Some header |})
     = false.
Proof.
  intros H1 H2 H3.
  assert (MailerController.getClientIp
            {| req_ip := ip; connection_remoteAddress := conn;
               socket_remoteAddress := sock; x_forwarded_for := Some header |}
          = (if (Js.beforeComma header =? EmptyString)%string
             then "unknown" else Js.beforeComma header)) as E.
  { unfold MailerController.getClientIp, Js.or. cbn [req_ip
      connection_remoteAddress socket_remoteAddress x_forwarded_for].
    rewrite H1, H2, H3. cbn [Js.optChain option_map Js.truthy].
    destruct (Js.beforeComma header =? EmptyString)%string; reflexivity. }
  split; [exact E|]. rewrite E.
  destruct (Js.beforeComma header =? EmptyString)%string;
    [reflexivity | apply beforeComma_no_comma].
Qed.

Lemma getClientIp_takes_first_forwarded_entry_witness :
  MailerController.getClientIp Examples.proxied
  = (if (Js.beforeComma "198.51.100.4, 10.0.0.1" =? EmptyString)%string
     then "unknown" else Js.beforeComma "198.51.100.4, 10.0.0.1")
  /\ Js.includes "," (MailerController.getClientIp Examples.proxied) = false.
Proof.
  apply (getClientIp_takes_first_forwarded_entry
           None (Some EmptyString) None "198.51.100.4, 10.0.0.1");
    reflexivity.
Defined.

Example proxied_client_address :
  MailerController.getClientIp Examples.proxied = "198.51.100.4".
Proof. reflexivity. Qed.

(** ** Sanitizing and validating *)

Lemma trim_clean (s : string) :
  startsClean (Js.trim s) = true /\ endsClean (Js.trim s) = true.
Proof.
  split.
  - unfold Js.trim. apply trimEnd_keeps_clean, trimStart_clean.
  - unfold endsClean, Js.trim, Js.trimEnd. rewrite rev_involutive.
    apply trimStart_clean.
Qed.

Lemma toLowerCase_startsClean (s : string) :
  startsClean (Js.toLowerCase s) = startsClean s.
Proof.
  destruct s as [|c s]; simpl; [reflexivity|].
  rewrite lowerChar_whiteSpace. reflexivity.
Qed.

Lemma toLowerCase_clean (s : string) :
  startsClean s = true /\ endsClean s = true ->
  startsClean (Js.toLowerCase s) = true /\ endsClean (Js.toLowerCase s) = true.
Proof.
  intros [H1 H2]. split.
  - rewrite toLowerCase_startsClean. exact H1.
  - unfold endsClean in *. rewrite <- toLowerCase_rev, toLowerCase_startsClean.
    exact H2.
Qed.

Lemma transform_twice (body : MailerDto) :
  Dto.whitelist (Dto.transform (Dto.whitelist (Dto.transform body)))
  = Dto.whitelist (Dto.transform body).
Proof.
  unfold Dto.whitelist, Dto.transform. simpl. f_equal.
  - destruct (firstName body); simpl; [rewrite trim_idempotent|]; reflexivity.
  - destruct (lastName body); simpl; [rewrite trim_idempotent|]; reflexivity.
  - destruct (email body); simpl; [rewrite normalize_email_twice|]; reflexivity.
  - destruct (phone body); simpl; [rewrite trim_idempotent|]; reflexivity.
  - destruct (petType body); simpl; [rewrite trim_idempotent|]; reflexivity.
  - destruct (dates body); simpl; [rewrite trim_idempotent|]; reflexivity.
Qed.

(** X14.  [sanitizeInput] is idempotent: sanitizing what has been
    sanitized changes nothing, whatever the object. *)
Theorem sanitizeInput_idempotent (data : MailerDto) :
  MailerController.sanitizeInput (MailerController.sanitizeInput data)
  = MailerController.sanitizeInput data.
Proof.
  unfold MailerController.sanitizeInput. simpl. f_equal.
  - destruct (firstName data); simpl; [rewrite trim_idempotent|]; reflexivity.
  - destruct (lastName data); simpl; [rewrite trim_idempotent|]; reflexivity.
  - destruct (email data); simpl; [rewrite normalize_email_twice|]; reflexivity.
Qed.

(** X15.  On an object that the pipe has let through, [sanitizeInput]
    is the identity: the pipe's transforms have already trimmed the
    names and trimmed and lower-cased the address. *)
Theorem sanitizeInput_identity_after_pipe
        (w : World) (body mailerDto : MailerDto) :
  Dto.ValidationPipe w body = Return mailerDto ->
  MailerController.sanitizeInput mailerDto = mailerDto.
Proof.
  intros H. destruct (pipe_return w body mailerDto H) as [-> _].
  apply sanitizeInput_after_pipe.
Qed.

Lemma sanitizeInput_identity_after_pipe_witness :
  MailerController.sanitizeInput Examples.janeDto = Examples.janeDto.
Proof.
  apply (sanitizeInput_identity_after_pipe Examples.passing Examples.jane
           Examples.janeDto).
  vm_compute. reflexivity.
Defined.

Lemma validated_field (w : World) (d : MailerDto) (f : field) :
  Dto.validate w d = [] ->
  Validator.isNotEmpty (get f d) = true
  /\ forall n, lengthLimit f = Some n -> Validator.maxLength n (get f d) = true.
Proof.
  intros Hnil. split.
  - apply (validate_passed w d (requiredMessage f) Hnil).
    unfold Dto.constraints. destruct f; simpl; auto 25.
  - destruct f; simpl; intros n [= <-].
    + apply (validate_passed w d "First name cannot exceed 50 characters" Hnil).
      unfold Dto.constraints. simpl. auto 25.
    + apply (validate_passed w d "Last name cannot exceed 50 characters" Hnil).
      unfold Dto.constraints. simpl. auto 25.
    + apply (validate_passed w d "Email cannot exceed 100 characters" Hnil).
      unfold Dto.constraints. simpl. auto 25.
    + apply (validate_passed w d "Phone number cannot exceed 20 characters" Hnil).
      unfold Dto.constraints. simpl. auto 25.
    + apply (validate_passed w d
               "Pet type description cannot exceed 200 characters" Hnil).
      unfold Dto.constraints. simpl. auto 25.
    + apply (validate_passed w d
               "Dates description cannot exceed 200 characters" Hnil).
      unfold Dto.constraints. simpl. auto 25.
Qed.

Lemma transformed_field_clean (body : MailerDto) (f : field) (s : string) :
  f <> RecaptchaToken ->
  get f (Dto.whitelist (Dto.transform body)) = Some s ->
  startsClean s = true /\ endsClean s = true.
Proof.
  intros Hf. destruct f; simpl; try contradiction.
  - destruct (firstName body); simpl; intros [= <-]. apply trim_clean.
  - destruct (lastName body); simpl; intros [= <-]. apply trim_clean.
  - destruct (email body); simpl; intros [= <-].
    apply toLowerCase_clean, trim_clean.
  - destruct (phone body); simpl; intros [= <-]. apply trim_clean.
  - destruct (petType body); simpl; intros [= <-]. apply trim_clean.
  - destruct (dates body); simpl; intros [= <-]. apply trim_clean.
Qed.

(** X16.  What the pipe lets through is well formed: each of the seven
    declared properties is a non-empty string within its length bound
    (50, 50, 100, 20, 200, 200 characters; none for the token), the six
    text properties neither begin nor end with white space, the address
    is lower-case and passes the address check, the phone number is made
    of digits, white space and [-+()] only, the token is the submitted
    one, and there is no [message]. *)
Theorem pipe_output_is_well_formed
        (w : World) (body mailerDto : MailerDto) :
  Dto.ValidationPipe w body = Return mailerDto ->
  (forall f,
      exists s,
        get f mailerDto = Some s
        /\ s <> EmptyString
        /\ (forall n, lengthLimit f = Some n -> String.length s <= n)
        /\ (f <> RecaptchaToken ->
            startsClean s = true /\ endsClean s = true))
  /\ (exists e,
         email mailerDto = Some e
         /\ isEmail w e = true
         /\ Js.toLowerCase e = e)
  /\ (exists p,
         phone mailerDto = Some p
         /\ forallb Validator.phoneChar (list_ascii_of_string p) = true)
  /\ recaptchaToken mailerDto = recaptchaToken body
  /\ message mailerDto = None.
Proof.
  intros Hpipe. destruct (pipe_return w body mailerDto Hpipe) as [Hdto Hnil].
  split; [|split; [|split; [|split]]].
  - intros f. destruct (validated_field w mailerDto f Hnil) as [Hne Hmax].
    destruct (get f mailerDto) as [s|] eqn:Es; [|discriminate Hne].
    exists s. split; [reflexivity|]. split; [|split].
    + simpl in Hne. apply negb_true_iff in Hne.
      apply String.eqb_neq in Hne. exact Hne.
    + intros n Hn. specialize (Hmax n Hn). simpl in Hmax.
      apply Nat.leb_le. exact Hmax.
    + intros Hf. subst mailerDto.
      exact (transformed_field_clean body f s Hf Es).
  - assert (Dto.isEmailV w (email mailerDto) = true) as He.
    { apply (validate_passed w mailerDto
               "Please provide a valid email address" Hnil).
      unfold Dto.constraints. simpl. auto 25. }
    destruct (email mailerDto) as [e|] eqn:Ee; [|discriminate He].
    exists e. split; [reflexivity|]. split; [exact He|].
    subst mailerDto. simpl in Ee.
    destruct (email body); simpl in Ee; [|discriminate].
    injection Ee as <-. apply toLowerCase_idempotent.
  - assert (Validator.matches Validator.phonePattern (phone mailerDto) = true)
      as Hp.
    { apply (validate_passed w mailerDto
               "Please provide a valid phone number" Hnil).
      unfold Dto.constraints. simpl. auto 25. }
    destruct (phone mailerDto) as [p|]; [|discriminate Hp].
    exists p. split; [reflexivity|].
    simpl in Hp. unfold Validator.phonePattern in Hp.
    apply andb_true_iff in Hp. apply Hp.
  - subst mailerDto. reflexivity.
  - subst mailerDto. reflexivity.
Qed.

Lemma pipe_output_is_well_formed_witness :
  (forall f,
      exists s,
        get f Examples.janeDto = Some s
        /\ s <> EmptyString
        /\ (forall n, lengthLimit f = Some n -> String.length s <= n)
        /\ (f <> RecaptchaToken ->
            startsClean s = true /\ endsClean s = true))
  /\ (exists e,
         email Examples.janeDto = Some e
         /\ isEmail Examples.passing e = true
         /\ Js.toLowerCase e = e)
  /\ (exists p,
         phone Examples.janeDto = Some p
         /\ forallb Validator.phoneChar (list_ascii_of_string p) = true)
  /\ recaptchaToken Examples.janeDto = recaptchaToken Examples.jane
  /\ message Examples.janeDto = None.
Proof.
  apply (pipe_output_is_well_formed Examples.passing Examples.jane
           Examples.janeDto).
  vm_compute. reflexivity.
Defined.

(** X17.  The pipe is idempotent: an object it has let through passes
    again, unchanged. *)
Theorem pipe_is_idempotent (w : World) (body mailerDto : MailerDto) :
  Dto.ValidationPipe w body = Return mailerDto ->
  Dto.ValidationPipe w mailerDto = Return mailerDto.
Proof.
  intros Hpipe. destruct (pipe_return w body mailerDto Hpipe) as [Hdto Hnil].
  unfold Dto.ValidationPipe. subst mailerDto.
  rewrite transform_twice, Hnil. reflexivity.
Qed.

Lemma pipe_is_idempotent_witness :
  Dto.ValidationPipe Examples.passing Examples.janeDto = Return Examples.janeDto.
Proof.
  apply (pipe_is_idempotent Examples.passing Examples.jane Examples.janeDto).
  vm_compute. reflexivity.
Defined.



(** X19.  The transforms run before the checks: a text property made of
    white space only counts as empty, and the request is refused with the
    "required" message of that property.  (The token is not trimmed.) *)
Theorem blank_field_is_rejected
        (w : World) (this : RecaptchaService.t)
        (body : MailerDto) (request : Request) (f : field) (s : string) :
  f <> RecaptchaToken ->
  get f body = Some s ->
  Js.trim s = EmptyString ->
  sends (trace (MailerController.handle w this body request)) = []
  /\ posts (trace (MailerController.handle w this body request)) = []
  /\ exists messages,
      In (requiredMessage f) messages
      /\ respond (outcome (MailerController.handle w this body request))
         = Fail 400 messages.
Proof.
  intros Hf Hget Hblank.
  assert (In (false, requiredMessage f)
             (Dto.constraints w (Dto.whitelist (Dto.transform body)))) as Hin.
  { unfold Dto.constraints.
    destruct f; simpl in Hget; try contradiction; simpl; rewrite Hget; simpl;
      rewrite Hblank; simpl; auto 25. }
  apply validate_violated in Hin.
  unfold MailerController.handle, Dto.ValidationPipe.
  destruct (Dto.validate w (Dto.whitelist (Dto.transform body))) as [|m ms].
  - destruct Hin.
  - split; [reflexivity|]. split; [reflexivity|].
    exists (m :: ms). split; [exact Hin | reflexivity].
Qed.

Lemma blank_field_is_rejected_witness :
  sends (trace (MailerController.handle Examples.passing Examples.service
                  Examples.blankName Examples.request)) = []
  /\ posts (trace (MailerController.handle Examples.passing Examples.service
                     Examples.blankName Examples.request)) = []
  /\ exists messages,
      In (requiredMessage FirstName) messages
      /\ respond (outcome (MailerController.handle Examples.passing
                             Examples.service Examples.blankName
                             Examples.request))
         = Fail 400 messages.
Proof.
  apply (blank_field_is_rejected Examples.passing Examples.service
           Examples.blankName Examples.request FirstName "   ").
  - discriminate.
  - reflexivity.
  - reflexivity.
Defined.

(** ** The route as a whole *)

Lemma sendMail_posts
      (w : World) (this : RecaptchaService.t)
      (mailerDto : MailerDto) (request : Request) :
  Js.truthy (recaptchaToken mailerDto) = true ->
  posts (trace (MailerController.sendMail w this mailerDto request))
  = posts (trace (gateCall w this mailerDto)).
Proof.
  intros Ht. unfold MailerController.sendMail, gateCall. rewrite Ht. simpl.
  destruct (verify_total w this (Js.interp (recaptchaToken mailerDto))
              (Some "contact_form") (Some (1 # 2)%Q)) as [b Hb].
  destruct (RecaptchaService.verify _ _ _ _ _) as [tv r].
  simpl in Hb. subst r. simpl.
  destruct b; simpl.
  - destruct (MailerController.prepareEmailContent w
                (MailerController.sanitizeInput mailerDto)) as [c|e] eqn:Hc;
      simpl.
    + unfold MailerController.sendEmails, MailerController.callSendMail. simpl.
      destruct (mailerService_sendMail w (admin c));
        destruct (mailerService_sendMail w (user c)); simpl;
        rewrite !posts_app; simpl; rewrite ?app_nil_r; reflexivity.
    + pose proof (prepareEmailContent_throws w _ e Hc) as ->. simpl.
      rewrite !posts_app. simpl. rewrite ?app_nil_r. reflexivity.
  - rewrite !posts_app. simpl. rewrite ?app_nil_r. reflexivity.
Qed.

(** X20.  A request that the pipe lets through costs exactly one call to
    the scoring service, whatever happens afterwards, and that call
    carries the token exactly as submitted and the action "contact_form". *)
Theorem one_assessment_per_accepted_request
        (w : World) (this : RecaptchaService.t)
        (body mailerDto : MailerDto) (request : Request) :
  Dto.ValidationPipe w body = Return mailerDto ->
  exists token,
    recaptchaToken body = Some token
    /\ token <> EmptyString
    /\ posts (trace (MailerController.handle w this body request))
       = [{| ev_token := token;
             ev_siteKey := RECAPTCHA_SITE_KEY w;
             ev_expectedAction := Some "contact_form" |}].
Proof.
  intros Hpipe.
  rewrite (handle_valid w this body mailerDto request Hpipe).
  destruct (pipe_return w body mailerDto Hpipe) as [Hdto Hnil].
  pose proof (validate_token w mailerDto Hnil) as Htok.
  rewrite (sendMail_posts w this mailerDto request Htok).
  assert (recaptchaToken mailerDto = recaptchaToken body) as Hsame.
  { subst mailerDto. reflexivity. }
  rewrite <- Hsame.
  destruct (recaptchaToken mailerDto) as [token|] eqn:Et; [|discriminate Htok].
  assert (token <> EmptyString) as Hne.
  { intros ->. discriminate Htok. }
  exists token. split; [reflexivity|]. split; [exact Hne|].
  unfold gateCall. rewrite Et. simpl Js.interp.
  rewrite (verify_posts w this token (Some "contact_form") (Some (1 # 2)%Q) Hne).
  reflexivity.
Qed.

Lemma one_assessment_per_accepted_request_witness :
  exists token,
    recaptchaToken Examples.jane = Some token
    /\ token <> EmptyString
    /\ posts (trace (MailerController.handle Examples.operatorDown
                       Examples.service Examples.jane Examples.request))
       = [{| ev_token := token;
             ev_siteKey := RECAPTCHA_SITE_KEY Examples.operatorDown;
             ev_expectedAction := Some "contact_form" |}].
Proof.
  apply (one_assessment_per_accepted_request Examples.operatorDown
           Examples.service Examples.jane Examples.janeDto Examples.request).
  vm_compute. reflexivity.
Defined.


(** X22.  The route never sends one message alone: either nothing is
    sent, or both messages composed from the sanitized object are, the
    operator's first. *)
Theorem route_sends_none_or_both
        (w : World) (this : RecaptchaService.t)
        (body : MailerDto) (request : Request) :
  sends (trace (MailerController.handle w this body request)) = []
  \/ exists mailerDto c,
      Dto.ValidationPipe w body = Return mailerDto
      /\ MailerController.prepareEmailContent w
           (MailerController.sanitizeInput mailerDto) = Return c
      /\ sends (trace (MailerController.handle w this body request))
         = [admin c; user c].
Proof.
  destruct (Dto.ValidationPipe w body) as [mailerDto|e] eqn:Hpipe.
  - rewrite (handle_valid w this body mailerDto request Hpipe).
    destruct (pipe_return w body mailerDto Hpipe) as [_ Hnil].
    pose proof (validate_token w mailerDto Hnil) as Htok.
    destruct (verify_total w this (Js.interp (recaptchaToken mailerDto))
                (Some "contact_form") (Some (1 # 2)%Q)) as [[|] Hb].
    + destruct (MailerController.prepareEmailContent w
                  (MailerController.sanitizeInput mailerDto)) as [c|e] eqn:Hc.
      * right. exists mailerDto, c.
        destruct (sendMail_verified w this mailerDto request c Htok Hb Hc)
          as [Hs _].
        auto.
      * left.
        exact (proj2 (sendMail_unconfigured w this mailerDto request e
                        Htok Hb Hc)).
    + left. exact (proj2 (sendMail_rejected w this mailerDto request Htok Hb)).
  - left. rewrite (handle_invalid w this body request e Hpipe). reflexivity.
Qed.

(** X23.  With no operator address in the environment, a valid and
    verified request ends in the server error: nothing is sent, although
    the scoring service has been consulted; the cause is in the log and
    not in the reply. *)
Theorem unconfigured_operator_address_is_server_error
        (w : World) (this : RecaptchaService.t)
        (body mailerDto : MailerDto) (request : Request) :
  Dto.ValidationPipe w body = Return mailerDto ->
  outcome (gateCall w this mailerDto) = Return true ->
  Js.truthy (ADMIN_EMAIL w) = false ->
  respond (outcome (MailerController.handle w this body request))
    = Fail 500
        ["We are currently experiencing technical difficulties. Please try again later or contact us directly."]
  /\ sends (trace (MailerController.handle w this body request)) = []
  /\ List.length (posts (trace (MailerController.handle w this body request))) = 1
  /\ In (Logger LError
           ("Contact form error from IP: " ++ MailerController.getClientIp request)
           [VExn (Error "ADMIN_EMAIL environment variable is not configured")])
        (trace (MailerController.handle w this body request)).
Proof.
  intros Hpipe Hgate Hadmin.
  rewrite (handle_valid w this body mailerDto request Hpipe).
  destruct (pipe_return w body mailerDto Hpipe) as [_ Hnil].
  pose proof (validate_token w mailerDto Hnil) as Htok.
  rewrite (sendMail_posts w this mailerDto request Htok).
  unfold gateCall at 1.
  rewrite (verify_posts w this (Js.interp (recaptchaToken mailerDto))
             (Some "contact_form") (Some (1 # 2)%Q)
             (interp_truthy _ Htok)).
  assert (MailerController.prepareEmailContent w
            (MailerController.sanitizeInput mailerDto)
          = Throw (Error "ADMIN_EMAIL environment variable is not configured"))
    as Hc.
  { unfold MailerController.prepareEmailContent. rewrite Hadmin. reflexivity. }
  destruct (sendMail_unconfigured w this mailerDto request _ Htok Hgate Hc)
    as [Ho Hs].
  rewrite Ho, Hs. repeat split.
  unfold MailerController.sendMail. rewrite Htok. simpl.
  unfold gateCall in Hgate.
  destruct (RecaptchaService.verify _ _ _ _ _) as [tv r].
  simpl in Hgate. subst r. simpl. rewrite Hc. simpl.
  right. apply in_or_app. right. left. reflexivity.
Qed.

Lemma unconfigured_operator_address_is_server_error_witness :
  respond (outcome (MailerController.handle Examples.unconfigured
                      Examples.service Examples.jane Examples.request))
    = Fail 500
        ["We are currently experiencing technical difficulties. Please try again later or contact us directly."]
  /\ sends (trace (MailerController.handle Examples.unconfigured
                     Examples.service Examples.jane Examples.request)) = []
  /\ List.length
       (posts (trace (MailerController.handle Examples.unconfigured
                        Examples.service Examples.jane Examples.request))) = 1
  /\ In (Logger LError
           ("Contact form error from IP: "
            ++ MailerController.getClientIp Examples.request)
           [VExn (Error "ADMIN_EMAIL environment variable is not configured")])
        (trace (MailerController.handle Examples.unconfigured
                  Examples.service Examples.jane Examples.request)).
Proof.
  apply (unconfigured_operator_address_is_server_error Examples.unconfigured
           Examples.service Examples.jane Examples.janeDto Examples.request).
  - vm_compute. reflexivity.
  - vm_compute. reflexivity.
  - reflexivity.
Defined.

(** X24.  A request whose token the scoring service scores below 0.5 is
    answered with the authorization error and its fixed message, which
    shows neither the score nor the reason, and nothing is sent. *)
Theorem low_score_is_unauthorized
        (w : World) (this : RecaptchaService.t)
        (body mailerDto : MailerDto) (request : Request)
        (data : RecaptchaEnterpriseResponse) :
  Dto.ValidationPipe w body = Return mailerDto ->
  httpService_post w (RecaptchaService.requestUrl this)
    (RecaptchaService.requestBody w (Js.interp (recaptchaToken mailerDto))
       (Some "contact_form"))
  = Responded (Some data) ->
  (RecaptchaService.score_of data < 1 # 2)%Q ->
  respond (outcome (MailerController.handle w this body request))
    = Fail 401 ["Security verification failed. Please try again."]
  /\ sends (trace (MailerController.handle w this body request)) = [].
Proof.
  intros Hpipe Hpost Hlow.
  rewrite (handle_valid w this body mailerDto request Hpipe).
  destruct (pipe_return w body mailerDto Hpipe) as [_ Hnil].
  pose proof (validate_token w mailerDto Hnil) as Htok.
  assert (outcome (gateCall w this mailerDto) = Return false) as Hgate.
  { apply verify_fails_closed.
    - apply interp_truthy. exact Htok.
    - intros data' tp Hp' _. rewrite Hpost in Hp'. injection Hp' as <-.
      right. right. exact Hlow. }
  destruct (sendMail_rejected w this mailerDto request Htok Hgate) as [-> ->].
  split; reflexivity.
Qed.

Lemma low_score_is_unauthorized_witness :
  respond (outcome (MailerController.handle Examples.lowScore Examples.service
                      Examples.jane Examples.request))
    = Fail 401 ["Security verification failed. Please try again."]
  /\ sends (trace (MailerController.handle Examples.lowScore Examples.service
                     Examples.jane Examples.request)) = [].
Proof.
  eapply (low_score_is_unauthorized Examples.lowScore Examples.service
            Examples.jane Examples.janeDto Examples.request).
  - vm_compute. reflexivity.
  - reflexivity.
  - reflexivity.
Defined.



(** ** The test-only controller *)

Section LegacyFacts.
Variable w : World.
Variable this : RecaptchaService.t.

Lemma legacy_after_gate (mailerDto : MailerDto) :
  Js.truthy (recaptchaToken mailerDto) = true ->
  outcome (gateCall w this mailerDto) = Return true ->
  sends (trace (Legacy.sendMail w this mailerDto))
  = Legacy.adminMessage w mailerDto
    :: match mailerService_sendMail w (Legacy.adminMessage w mailerDto) with
       | Fulfilled => [Legacy.userMessage w mailerDto]
       | Rejected _ => []
       end
  /\ outcome (Legacy.sendMail w this mailerDto)
     = match mailerService_sendMail w (Legacy.adminMessage w mailerDto),
             mailerService_sendMail w (Legacy.userMessage w mailerDto) with
       | Fulfilled, Fulfilled =>
           Return {| Legacy.success := true;
                     Legacy.reply_message := "Email sent successfully";
                     Legacy.data := (Fulfilled, Fulfilled) |}
       | _, _ =>
           Throw (HttpException "Failed to send email. Please try again later."
                    INTERNAL_SERVER_ERROR)
       end.
Proof.
  intros Ht Hg. unfold Legacy.sendMail. rewrite Ht. simpl.
  pose proof (verify_sends w this (Js.interp (recaptchaToken mailerDto))
                (Some "contact_form") (Some (1 # 2)%Q)) as Hs.
  unfold gateCall in Hg.
  destruct (RecaptchaService.verify _ _ _ _ _) as [tv r].
  simpl in Hg, Hs. subst r. simpl.
  unfold Legacy.awaitSendMail. simpl.
  destruct (mailerService_sendMail w (Legacy.adminMessage w mailerDto)); simpl.
  - destruct (mailerService_sendMail w (Legacy.userMessage w mailerDto)); simpl;
      rewrite !sends_app, Hs; split; reflexivity.
  - rewrite !sends_app, Hs. split; reflexivity.
Qed.

End LegacyFacts.

(** X26.  In the test-only controller the sends are made one after the
    other: when the operator's send fails, the submitter's is never
    attempted, and the reply is the server error of that controller. *)
Theorem legacy_operator_failure_blocks_submitter
        (w : World) (this : RecaptchaService.t)
        (mailerDto : MailerDto) (reason : string) :
  Js.truthy (recaptchaToken mailerDto) = true ->
  outcome (gateCall w this mailerDto) = Return true ->
  mailerService_sendMail w (Legacy.adminMessage w mailerDto) = Rejected reason ->
  sends (trace (Legacy.sendMail w this mailerDto))
    = [Legacy.adminMessage w mailerDto]
  /\ outcome (Legacy.sendMail w this mailerDto)
     = Throw (HttpException "Failed to send email. Please try again later." 500).
Proof.
  intros Ht Hg Ha.
  destruct (legacy_after_gate w this mailerDto Ht Hg) as [-> ->].
  rewrite Ha. split; reflexivity.
Qed.

Lemma legacy_operator_failure_blocks_submitter_witness :
  sends (trace (Legacy.sendMail Examples.operatorDown Examples.service
                  Examples.janeDto))
    = [Legacy.adminMessage Examples.operatorDown Examples.janeDto]
  /\ outcome (Legacy.sendMail Examples.operatorDown Examples.service
                Examples.janeDto)
     = Throw (HttpException "Failed to send email. Please try again later." 500).
Proof.
  apply (legacy_operator_failure_blocks_submitter Examples.operatorDown
           Examples.service Examples.janeDto "SMTP down").
  - reflexivity.
  - vm_compute. reflexivity.
  - vm_compute. reflexivity.
Defined.

(** X27.  In the test-only controller a failed submitter send is fatal
    too: the reply is the server error although the operator's message
    has gone out. *)
Theorem legacy_submitter_failure_is_fatal
        (w : World) (this : RecaptchaService.t)
        (mailerDto : MailerDto) (reason : string) :
  Js.truthy (recaptchaToken mailerDto) = true ->
  outcome (gateCall w this mailerDto) = Return true ->
  mailerService_sendMail w (Legacy.adminMessage w mailerDto) = Fulfilled ->
  mailerService_sendMail w (Legacy.userMessage w mailerDto) = Rejected reason ->
  sends (trace (Legacy.sendMail w this mailerDto))
    = [Legacy.adminMessage w mailerDto; Legacy.userMessage w mailerDto]
  /\ outcome (Legacy.sendMail w this mailerDto)
     = Throw (HttpException "Failed to send email. Please try again later." 500).
Proof.
  intros Ht Hg Ha Hu.
  destruct (legacy_after_gate w this mailerDto Ht Hg) as [-> ->].
  rewrite Ha, Hu. split; reflexivity.
Qed.

Lemma legacy_submitter_failure_is_fatal_witness :
  sends (trace (Legacy.sendMail Examples.submitterDown Examples.service
                  Examples.janeDto))
    = [Legacy.adminMessage Examples.submitterDown Examples.janeDto;
       Legacy.userMessage Examples.submitterDown Examples.janeDto]
  /\ outcome (Legacy.sendMail Examples.submitterDown Examples.service
                Examples.janeDto)
     = Throw (HttpException "Failed to send email. Please try again later." 500).
Proof.
  apply (legacy_submitter_failure_is_fatal Examples.submitterDown
           Examples.service Examples.janeDto "mailbox unknown").
  - reflexivity.
  - vm_compute. reflexivity.
  - vm_compute. reflexivity.
  - vm_compute. reflexivity.
Defined.

(** X28.  The test-only controller answers a missing token and a refused
    token alike with an authorization error (status 401), and sends
    nothing; with no token the scoring service is not called. *)
Theorem legacy_refusals_are_unauthorized
        (w : World) (this : RecaptchaService.t) (mailerDto : MailerDto) :
  Js.truthy (recaptchaToken mailerDto) = false
  \/ outcome (gateCall w this mailerDto) = Return false ->
  (exists m,
      outcome (Legacy.sendMail w this mailerDto)
      = Throw (UnauthorizedException m))
  /\ sends (trace (Legacy.sendMail w this mailerDto)) = []
  /\ (Js.truthy (recaptchaToken mailerDto) = false ->
      trace (Legacy.sendMail w this mailerDto) = []).
Proof.
  intros H. unfold Legacy.sendMail.
  destruct (Js.truthy (recaptchaToken mailerDto)) eqn:Ht; simpl.
  - destruct H as [H|Hg]; [discriminate|].
    pose proof (verify_sends w this (Js.interp (recaptchaToken mailerDto))
                  (Some "contact_form") (Some (1 # 2)%Q)) as Hs.
    unfold gateCall in Hg.
    destruct (RecaptchaService.verify _ _ _ _ _) as [tv r].
    simpl in Hg, Hs. subst r. simpl.
    split; [eauto|]. split; [|discriminate].
    rewrite !sends_app, Hs. reflexivity.
  - split; [eauto|]. split; reflexivity.
Qed.

Lemma legacy_refusals_are_unauthorized_witness :
  (exists m,
      outcome (Legacy.sendMail Examples.lowScore Examples.service
                 Examples.janeDto)
      = Throw (UnauthorizedException m))
  /\ sends (trace (Legacy.sendMail Examples.lowScore Examples.service
                     Examples.janeDto)) = []
  /\ (Js.truthy (recaptchaToken Examples.janeDto) = false ->
      trace (Legacy.sendMail Examples.lowScore Examples.service
               Examples.janeDto) = []).
Proof.
  apply (legacy_refusals_are_unauthorized Examples.lowScore Examples.service
           Examples.janeDto).
  right. vm_compute. reflexivity.
Defined.

(** X29.  The test-only controller does not check the environment: with
    no operator address it still sends both messages, the operator's
    addressed to and from the empty string, and reports success when the
    mail client accepts them. *)
Theorem legacy_unconfigured_sends_to_empty_address
        (w : World) (this : RecaptchaService.t) (mailerDto : MailerDto) :
  Js.truthy (recaptchaToken mailerDto) = true ->
  outcome (gateCall w this mailerDto) = Return true ->
  Js.truthy (ADMIN_EMAIL w) = false ->
  mailerService_sendMail w (Legacy.adminMessage w mailerDto) = Fulfilled ->
  mailerService_sendMail w (Legacy.userMessage w mailerDto) = Fulfilled ->
  sends (trace (Legacy.sendMail w this mailerDto))
    = [Legacy.adminMessage w mailerDto; Legacy.userMessage w mailerDto]
  /\ msg_to (Legacy.adminMessage w mailerDto) = Some EmptyString
  /\ msg_from (Legacy.adminMessage w mailerDto) = EmptyString
  /\ msg_from (Legacy.userMessage w mailerDto) = EmptyString
  /\ outcome (Legacy.sendMail w this mailerDto)
     = Return {| Legacy.success := true;
                 Legacy.reply_message := "Email sent successfully";
                 Legacy.data := (Fulfilled, Fulfilled) |}.
Proof.
  intros Ht Hg Hadmin Ha Hu.
  destruct (legacy_after_gate w this mailerDto Ht Hg) as [-> ->].
  rewrite Ha, Hu.
  assert (Legacy.adminAddress w = EmptyString) as Haddr.
  { unfold Legacy.adminAddress, Js.or. rewrite Hadmin. reflexivity. }
  unfold Legacy.adminMessage, Legacy.userMessage. simpl.
  rewrite Haddr. repeat split.
Qed.

Lemma legacy_unconfigured_sends_to_empty_address_witness :
  sends (trace (Legacy.sendMail Examples.unconfigured Examples.service
                  Examples.janeDto))
    = [Legacy.adminMessage Examples.unconfigured Examples.janeDto;
       Legacy.userMessage Examples.unconfigured Examples.janeDto]
  /\ msg_to (Legacy.adminMessage Examples.unconfigured Examples.janeDto)
     = Some EmptyString
  /\ msg_from (Legacy.adminMessage Examples.unconfigured Examples.janeDto)
     = EmptyString
  /\ msg_from (Legacy.userMessage Examples.unconfigured Examples.janeDto)
     = EmptyString
  /\ outcome (Legacy.sendMail Examples.unconfigured Examples.service
                Examples.janeDto)
     = Return {| Legacy.success := true;
                 Legacy.reply_message := "Email sent successfully";
                 Legacy.data := (Fulfilled, Fulfilled) |}.
Proof.
  apply (legacy_unconfigured_sends_to_empty_address Examples.unconfigured
           Examples.service Examples.janeDto).
  - reflexivity.
  - vm_compute. reflexivity.
  - reflexivity.
  - reflexivity.
  - reflexivity.
Defined.
